(** * Perplexity CLI: stream decoder and context manager

    A shallow embedding of the core of the Perplexity command-line client
    ([api.py], [session.py], [perplexity_cli.py]) and the properties its
    specification states about it.

    Conventions of the embedding.
    - A Python [str] is a [string]; every [ascii] stands for one character,
      so [len(text)] is [String.length text].
    - The raw lines that [requests] hands to the decoder are [bytes]: lists
      of [byte].
    - Objects produced by [json.loads] are values of [json]; a JSON object
      is a [gmap string json], as a Python [dict] with [str] keys.
    - A call either returns or raises: [outcome A].  A generator is the
      list of what it yields together with the outcome that ends it.
    - What the program cannot decide on its own (the tokenizer, the UTF-8
      codec, the JSON parser, the network, the clock) is a [Variable] of
      the section that uses it. *)

From Stdlib Require Import ZArith QArith.QArith_base List String Ascii Strings.Byte Lia.
From stdpp Require Import gmap strings list.

#[local] Set Warnings "-register-all".
#[local] Close Scope Q_scope.
#[local] Open Scope Z_scope.
#[local] Open Scope string_scope.

(** ** Python values and exceptions *)

Module Py.

Definition bytes := list byte.

(** The objects [json.loads] builds.  A number is kept by its value
    ([int] and [float] behave alike in every operation used here). *)
Inductive json :=
| JNull
| JBool (b : bool)
| JNum (q : Q)
| JStr (s : string)
| JArr (l : list json)
| JObj (m : gmap string json).

(** The exception classes that can occur, each named by the class that
    is raised.  [IOError] is Python's alias of [OSError]; [YAMLError]
    is [yaml.YAMLError].  [KeyboardInterrupt] is the only one that does
    not derive from [Exception]. *)
Inductive exn :=
| TypeError
| ValueError
| KeyError
| IndexError
| AttributeError
| RecursionError
| UnicodeDecodeError
| JSONDecodeError
| IOError
| YAMLError
| HTTPError (status : Z)
| RequestException (detail : string)
| KeyboardInterrupt.

Definition is_Exception (e : exn) : bool :=
  match e with
  | KeyboardInterrupt => false
  | _ => true
  end.

Inductive outcome (A : Type) :=
| Returned (a : A)
| Raised (e : exn).
Arguments Returned {A} a.
Arguments Raised {A} e.

Definition bind {A B} (c : outcome A) (k : A -> outcome B) : outcome B :=
  match c with
  | Returned a => k a
  | Raised e => Raised e
  end.

(** [bool(v)] *)
Definition truthy (v : json) : bool :=
  match v with
  | JNull => false
  | JBool b => b
  | JNum q => negb (Z.eqb (Qnum q) 0)
  | JStr s => negb (String.eqb s "")
  | JArr l => match l with [] => false | _ => true end
  | JObj m => negb (bool_decide (m = ∅))
  end.

Definition is_str (key : string) (v : json) : bool :=
  match v with
  | JStr s => String.eqb s key
  | _ => false
  end.

Definition is_substring (key s : string) : bool :=
  match String.index 0 key s with
  | Some _ => true
  | None => false
  end.

(** [key in v] for a [str] key *)
Definition contains (key : string) (v : json) : outcome bool :=
  match v with
  | JObj m => Returned (bool_decide (is_Some (m !! key)))
  | JArr l => Returned (existsb (is_str key) l)
  | JStr s => Returned (is_substring key s)
  | _ => Raised TypeError
  end.

(** [v[key]] for a [str] key *)
Definition getitem (v : json) (key : string) : outcome json :=
  match v with
  | JObj m => match m !! key with
              | Some x => Returned x
              | None => Raised KeyError
              end
  | _ => Raised TypeError
  end.

(** [v[0]] *)
Definition getitem0 (v : json) : outcome json :=
  match v with
  | JArr l => match l with
              | x :: _ => Returned x
              | [] => Raised IndexError
              end
  | JStr s => match s with
              | String c _ => Returned (JStr (String c ""))
              | EmptyString => Raised IndexError
              end
  | JObj _ => Raised KeyError
  | _ => Raised TypeError
  end.

(** [v.get(key, default)] *)
Definition get (v : json) (key : string) (default : json) : outcome json :=
  match v with
  | JObj m => Returned (match m !! key with Some x => x | None => default end)
  | _ => Raised AttributeError
  end.

(** [s[n:]] on a [str] *)
Fixpoint slice_from (n : nat) (s : string) : string :=
  match n, s with
  | O, _ => s
  | S n', String _ s' => slice_from n' s'
  | S _, EmptyString => EmptyString
  end.

(** [l[:-n]] and [l[-n:]] on a list *)
Definition slice_until_last {A} (n : nat) (l : list A) : list A :=
  firstn (length l - n)%nat l.
Definition slice_last {A} (n : nat) (l : list A) : list A :=
  skipn (length l - n)%nat l.

End Py.
Import Py.

Declare Scope py_scope.
Notation "'let*' x := c 'in' k" := (bind c (fun x => k))
  (at level 10, x name, c at level 100, k at level 200) : py_scope.
#[local] Open Scope py_scope.

(** ** Messages *)

(** The dictionary [{"role": role, "content": content}] that
    [Session.add_message] builds. *)
Record message := Message { role : string; content : string }.

(** ** The world outside the program *)

(** The body of a request: [{"model": ..., "messages": ..., "stream": ...}]. *)
Record payload := Payload {
  data_model : string;
  data_messages : list message;
  data_stream : bool }.

(** One call [requests.post(url, headers=..., json=..., stream=...)]. *)
Record request := Request {
  req_url : string;
  req_headers : list (string * string);
  req_json : payload;
  req_stream : bool }.

(** What [requests] hands back: the status, the body as text (for
    [response.json()]), and the body as [response.iter_lines()] delivers
    it, with the exception that interrupts the delivery, if any. *)
Record response := Response {
  status_code : Z;
  text : string;
  iter_lines : list bytes;
  iter_lines_error : option exn }.

(** Everything the program calls but does not define. *)
Record runtime := Runtime {
  (** [TIKTOKEN_AVAILABLE]: whether [import tiktoken] succeeded. *)
  TIKTOKEN_AVAILABLE : bool;
  (** [tiktoken.get_encoding("cl100k_base").encode]: the token ids of a
      text, or [None] when it raises an [Exception]. *)
  tiktoken_encode : string -> option (list Z);
  (** [bytes.decode("utf-8")]: [None] is [UnicodeDecodeError]. *)
  utf8_decode : bytes -> option string;
  (** [json.loads] *)
  json_loads : string -> outcome json;
  (** [requests.post] *)
  http_post : request -> outcome response;
  (** [datetime.now().isoformat()] *)
  now_isoformat : string;
  (** [str(e)] of an exception and [format(v)] of a value that is not a
      [str], as an f-string inserts them. *)
  exn_str : exn -> string;
  value_repr : json -> string }.

(** ** Token estimate ([perplexity_cli.py]) *)

Section Tokens.

Variable rt : runtime.

Definition fallback_estimate (text : string) : Z :=
  Z.of_nat (String.length text) / 4.

Definition count_tokens (text : string) : Z :=
  if TIKTOKEN_AVAILABLE rt then
    match tiktoken_encode rt text with
    | Some tokens => Z.of_nat (length tokens)
    | None => fallback_estimate text
    end
  else fallback_estimate text.

(** [sum(count_tokens(msg.get("content", "")) for msg in messages)]:
    Python's [sum] adds from the left, starting at 0. *)
Definition get_messages_token_count (messages : list message) : Z :=
  fold_left (fun acc msg => acc + count_tokens (content msg)) messages 0.

End Tokens.

(** ** The API client ([api.py]) *)

Module PerplexityAPI.
Section Client.

Variable rt : runtime.
(** [self.api_key] *)
Variable api_key : string.

Definition API_URL : string := "https://api.perplexity.ai/chat/completions".
Definition DEFAULT_MODEL : string := "sonar-pro".

Definition make_headers : list (string * string) :=
  [("accept", "application/json");
   ("content-type", "application/json");
   ("Authorization", "Bearer " ++ api_key)].

(** [response.raise_for_status()] *)
Definition raise_for_status (r : response) : outcome unit :=
  if ((400 <=? status_code r) && (status_code r <? 600))%Z
  then Raised (HTTPError (status_code r))
  else Returned tt.

(** The statements of [_stream_response] between [json.loads] and the
    [except] clause, on the chunk that [json.loads] returned: the new
    [citations] and [full_content], and what is yielded. *)
Definition stream_chunk (chunk citations : json) (full_content : string)
  : outcome (json * string * list string) :=
  let* has_citations := contains "citations" chunk in
  let* citations :=
    (if has_citations : bool then getitem chunk "citations"
     else Returned citations) in
  let* has_choices := contains "choices" chunk in
  let* choices_ok :=
    (if has_choices : bool
     then let* choices := getitem chunk "choices" in Returned (truthy choices)
     else Returned false) in
  if choices_ok : bool then
    let* choices := getitem chunk "choices" in
    let* first := getitem0 choices in
    let* delta := get first "delta" (JObj ∅) in
    let* content := get delta "content" (JStr "") in
    if truthy content then
      match content with
      | JStr fragment =>
          Returned (citations, full_content ++ fragment, [fragment])
      | _ => Raised TypeError
      end
    else Returned (citations, full_content, [])
  else Returned (citations, full_content, []).

(** How one iteration of the [for] loop of [_stream_response] ends:
    it goes on to the next line with new values of [citations] and
    [full_content], having yielded some fragments; or it leaves the
    loop ([break]); or it raises. *)
Inductive iteration :=
| Continue (citations : json) (full_content : string) (yielded : list string)
| Break
| Throw (e : exn).

(** The body of the [for] loop, on one line. *)
Definition stream_line (line : bytes) (citations : json) (full_content : string)
  : iteration :=
  match line with
  | [] => Continue citations full_content []
  | _ :: _ =>
      match utf8_decode rt line with
      | None => Throw UnicodeDecodeError
      | Some line_str =>
          if negb (String.prefix "data: " line_str)
          then Continue citations full_content []
          else
            let json_str := slice_from 6 line_str in
            if String.eqb json_str "[DONE]"
            then Break
            else
              match (let* chunk := json_loads rt json_str in
                     stream_chunk chunk citations full_content) with
              | Returned (citations', full_content', fragments) =>
                  Continue citations' full_content' fragments
              | Raised JSONDecodeError => Continue citations full_content []
              | Raised e => Throw e
              end
      end
  end.

(** The [for] loop over the lines still to come: the fragments yielded,
    and the values of [citations] and [full_content] when the loop is
    left, or the exception that left it.  [error] is what
    [iter_lines] raises once the lines are exhausted, if anything. *)
Fixpoint stream_lines (lines : list bytes) (error : option exn)
    (citations : json) (full_content : string)
  : list string * outcome (json * string) :=
  match lines with
  | [] =>
      ([], match error with
           | Some e => Raised e
           | None => Returned (citations, full_content)
           end)
  | line :: rest =>
      match stream_line line citations full_content with
      | Continue citations' full_content' fragments =>
          let (more, final) :=
            stream_lines rest error citations' full_content' in
          ((fragments ++ more)%list, final)
      | Break => ([], Returned (citations, full_content))
      | Throw e => ([], Raised e)
      end
  end.

(** The body of the [with] statement and the final [return], on the
    response [r] that [requests.post] gave. *)
Definition consume_stream (r : response)
  : list string * outcome (gmap string json) :=
  match raise_for_status r with
  | Raised e => ([], Raised e)
  | Returned _ =>
      let (fragments, final) :=
        stream_lines (iter_lines r) (iter_lines_error r) (JArr []) "" in
      (fragments,
       let* st := final in
       Returned ({[ "citations" := st.1; "content" := JStr st.2 ]}
                 : gmap string json))
  end.

(** The generator [_stream_response]: its fragments and how it ends. *)
Definition _stream_response (headers : list (string * string)) (data : payload)
  : list string * outcome (gmap string json) :=
  match http_post rt (Request API_URL headers data true) with
  | Raised e => ([], Raised e)
  | Returned r => consume_stream r
  end.

Definition _sync_response (headers : list (string * string)) (data : payload)
  : outcome (gmap string json) :=
  let* r := http_post rt (Request API_URL headers data false) in
  let* _ := raise_for_status r in
  let* result := json_loads rt (text r) in
  let* has_choices := contains "choices" result in
  let* choices_ok :=
    (if has_choices : bool
     then let* choices := getitem result "choices" in Returned (truthy choices)
     else Returned false) in
  let* content :=
    (if choices_ok : bool then
       let* choices := getitem result "choices" in
       let* first := getitem0 choices in
       let* message := get first "message" (JObj ∅) in
       get message "content" (JStr "")
     else Returned (JStr "")) in
  let* citations := get result "citations" (JArr []) in
  Returned ({[ "content" := content; "citations" := citations ]}
            : gmap string json).

(** The [messages] that [summarize] sends. *)
Definition summarize_messages (text : string) : list message :=
  [Message "system"
     "Summarize the following conversation concisely, preserving key context and facts.";
   Message "user" text].

Definition summarize (text : string) (model : string) : outcome json :=
  let messages := summarize_messages text in
  let* result := _sync_response make_headers (Payload model messages false) in
  Returned (match result !! "content" with
            | Some v => v
            | None => JStr text
            end).

(** What [chat] returns: the generator of [_stream_response], or the
    dictionary of [_sync_response]. *)
Inductive chat_result :=
| Streamed (run : list string * outcome (gmap string json))
| Synced (result : outcome (gmap string json)).

Definition chat (messages : list message) (model : string) (stream : bool)
  : chat_result :=
  let headers := make_headers in
  let data := Payload model messages stream in
  if stream then Streamed (_stream_response headers data)
  else Synced (_sync_response headers data).

(** [for chunk in ...] over what [chat] returned: the chunks, and how the
    iteration ends.  Iterating the dictionary of a non-streaming call
    gives its keys, in insertion order. *)
Definition iterate (c : chat_result) : list string * outcome unit :=
  match c with
  | Streamed (fragments, final) => (fragments, let* _ := final in Returned tt)
  | Synced (Returned _) => (["content"; "citations"], Returned tt)
  | Synced (Raised e) => ([], Raised e)
  end.

End Client.
End PerplexityAPI.

(** ** Sessions ([session.py]) and configuration ([config.py]) *)

Module Session.

Record t := Make {
  messages : list message;
  current_file : option string;
  created_at : string;
  model : string }.

Definition add_message (role content : string) (self : t) : t :=
  Make (messages self ++ [Message role content])%list
       (current_file self) (created_at self) (model self).

(** [self.messages.copy()] *)
Definition get_messages (self : t) : list message := messages self.

Definition clear (now : string) (self : t) : t :=
  Make [] (current_file self) now (model self).

End Session.

Module Config.

(** The values the properties of [Config] return. *)
Record t := Make {
  model : string;
  system_prompt : string;
  input_token_limit : Z }.

End Config.

(** ** The context manager ([perplexity_cli.py]) *)

Module PerplexityCLI.

(** The application object, with what [console.print] has been given so
    far.  [api] is the key of the client, once [initialize_api] has
    built it. *)
Record t := Make {
  config : Config.t;
  session : Session.t;
  api : option string;
  console : list string }.

Definition print (line : string) (self : t) : t :=
  Make (config self) (session self) (api self) (console self ++ [line])%list.

Definition set_session (s : Session.t) (self : t) : t :=
  Make (config self) s (api self) (console self).

Section Context.

Variable rt : runtime.

Definition newline : string := String "010"%char "".

(** [f"{m['role']}: {m['content']}"] *)
Definition transcript_line (m : message) : string :=
  role m ++ ": " ++ content m.

(** ["\n".join(f"{m['role']}: {m['content']}" for m in to_summarize)] *)
Definition transcript (to_summarize : list message) : string :=
  String.concat newline (map transcript_line to_summarize).

(** [f"{summary}"] *)
Definition format_value (v : json) : string :=
  match v with
  | JStr s => s
  | _ => value_repr rt v
  end.

(** [self.api.summarize(summary_text, self.config.model)] *)
Definition call_summarize (self : t) (summary_text : string) : outcome json :=
  match api self with
  | Some api_key =>
      PerplexityAPI.summarize rt api_key summary_text (Config.model (config self))
  | None => Raised AttributeError
  end.

Definition summarize_if_needed (self : t) : outcome t :=
  let messages := Session.get_messages (session self) in
  let token_count := get_messages_token_count rt messages in
  if (Config.input_token_limit (config self) <? token_count)%Z
     && (4 <? length messages)%nat
  then
    let self := print "[dim]Summarizing conversation to manage context...[/dim]" self in
    let to_summarize := slice_until_last 4 messages in
    let to_keep := slice_last 4 messages in
    let summary_text := transcript to_summarize in
    match call_summarize self summary_text with
    | Returned summary =>
        let s := Session.clear (now_isoformat rt) (session self) in
        let s := Session.add_message "system"
                   ("Previous conversation summary: " ++ format_value summary) s in
        let s := fold_left
                   (fun s msg => Session.add_message (role msg) (content msg) s)
                   to_keep s in
        Returned (print "[dim]Context summarized successfully.[/dim]"
                    (set_session s self))
    | Raised e =>
        if is_Exception e
        then Returned (print ("[yellow]Warning: Could not summarize: "
                              ++ exn_str rt e ++ "[/yellow]") self)
        else Raised e
    end
  else Returned self.

(** The successive values of [full_response] in the loop of [chat],
    each of which [live.update] displays. *)
Fixpoint frames_from (full_response : string) (chunks : list string)
  : list string :=
  match chunks with
  | [] => []
  | chunk :: rest =>
      (full_response ++ chunk) :: frames_from (full_response ++ chunk) rest
  end.

(** [for chunk in self.api.chat(messages, model=..., stream=True)] *)
Definition call_chat (self : t) (messages : list message)
  : list string * outcome unit :=
  match api self with
  | Some api_key =>
      PerplexityAPI.iterate
        (PerplexityAPI.chat rt api_key messages (Config.model (config self)) true)
  | None => ([], Raised AttributeError)
  end.

(** [chat]: what the live display shows, and the application afterwards
    or the exception that escapes. *)
Definition chat (user_input : string) (self : t) : list string * outcome t :=
  match summarize_if_needed self with
  | Raised e => ([], Raised e)
  | Returned self =>
      let messages :=
        (Message "system" (Config.system_prompt (config self))
           :: Session.get_messages (session self)
           ++ [Message "user" user_input])%list in
      let self :=
        set_session (Session.add_message "user" user_input (session self)) self in
      let self := print "" self in
      let (chunks, final) := call_chat self messages in
      let full_response := fold_left String.append chunks "" in
      (frames_from "" chunks,
       match final with
       | Returned _ =>
           let s := Session.add_message "assistant" full_response (session self) in
           Returned (print "" (set_session s self))
       | Raised e =>
           if is_Exception e
           then Returned (print (newline ++ "[red]Error: " ++ exn_str rt e
                                 ++ "[/red]") self)
           else Raised e
       end)
  end.

End Context.
End PerplexityCLI.

(** ** The configuration store and start-up ([config.py], [api.py]) *)

Module ConfigStore.

Definition DEFAULT_CONFIG : gmap string json :=
  {[ "model" := JStr "sonar-pro";
     "system_prompt" :=
       JStr "You are a helpful AI assistant with real-time search capabilities.";
     "input_token_limit" := JNum (Qmake 3000 1);
     "output_token_limit" := JNum (Qmake 1000 1);
     "auto_save" := JBool false;
     "session_dir" := JStr "~/.perplexity-cli/sessions" ]}.

(** What [yaml.safe_load] returns at the top level: [None] for an empty
    document, a boolean, a number, a text, or a mapping with text keys.
    A top-level sequence and the other types of YAML (dates, binary
    data, sets) are not covered. *)
Inductive document :=
| YNone
| YBool (b : bool)
| YNum (q : Q)
| YStr (s : string)
| YMap (user_config : gmap string json).

(** [bool(doc)] *)
Definition truthy (doc : document) : bool :=
  match doc with
  | YNone => false
  | YBool b => b
  | YNum q => negb (Z.eqb (Qnum q) 0)
  | YStr s => negb (String.eqb s "")
  | YMap m => negb (bool_decide (m = ∅))
  end.

(** [d.update(other)]: the entries of a mapping win over those of [d];
    a text is iterated character by character, and a character is not a
    key-value pair; the other scalars are not iterable. *)
Definition update (d : gmap string json) (other : document)
  : outcome (gmap string json) :=
  match other with
  | YMap m => Returned (m ∪ d)
  | YStr EmptyString => Returned d
  | YStr (String _ _) => Raised ValueError
  | YNone | YBool _ | YNum _ => Raised TypeError
  end.

(** What [_load] finds at [config_path]: no file, or a file, with what
    [open] and [yaml.safe_load] make of it: the document, or the
    exception one of them raises ([IOError] when the file cannot be
    opened or read, [UnicodeDecodeError] when it is not UTF-8,
    [YAMLError] when it is not YAML). *)
Inductive config_file :=
| Absent
| Present (loaded : outcome document).

(** [_load]: the configuration afterwards, or the exception that
    escapes. *)
Definition _load (file : config_file) (_config : gmap string json)
  : outcome (gmap string json) :=
  match file with
  | Absent => Returned _config
  | Present loaded =>
      match (let* doc := loaded in
             let user_config := if truthy doc then doc else YMap ∅ in
             update _config user_config) with
      | Returned _config' => Returned _config'
      | Raised YAMLError | Raised IOError => Returned _config
      | Raised e => Raised e
      end
  end.

(** [Config.__init__]: [self._config] of the object built, or the
    exception raised. *)
Definition init (file : config_file) : outcome (gmap string json) :=
  _load file DEFAULT_CONFIG.

Definition get (_config : gmap string json) (key : string) (default : json)
  : json :=
  match _config !! key with
  | Some v => v
  | None => default
  end.

Definition set (key : string) (value : json) (_config : gmap string json)
  : gmap string json :=
  <[key := value]> _config.

(** The properties [model], [system_prompt] and [input_token_limit],
    each with [DEFAULT_CONFIG[...]] as fallback. *)
Definition model (_config : gmap string json) : json :=
  get _config "model" (JStr "sonar-pro").
Definition set_model (value : json) (_config : gmap string json) :=
  set "model" value _config.
Definition system_prompt (_config : gmap string json) : json :=
  get _config "system_prompt"
    (JStr "You are a helpful AI assistant with real-time search capabilities.").
Definition set_system_prompt (value : json) (_config : gmap string json) :=
  set "system_prompt" value _config.
Definition input_token_limit (_config : gmap string json) : json :=
  get _config "input_token_limit" (JNum (Qmake 3000 1)).

(** [os.environ.get("PPLX_API_KEY", self._config.get("api_key", ""))] *)
Definition api_key (environ : gmap string string) (_config : gmap string json)
  : json :=
  match environ !! "PPLX_API_KEY" with
  | Some v => JStr v
  | None => get _config "api_key" (JStr "")
  end.

(** The configurations a program can hold: the one [Config()] builds,
    changed by [set] and the property setters. *)
Inductive reachable : gmap string json -> Prop :=
| reachable_init file c : init file = Returned c -> reachable c
| reachable_set key value c : reachable c -> reachable (set key value c).

End ConfigStore.

Module Startup.

Definition KEY_ERROR : string :=
  "API key not found. Set PPLX_API_KEY environment variable or pass api_key.".

(** [PerplexityAPI.__init__]: the key the client keeps, or the message
    of the [ValueError] it raises. *)
Definition api_init (environ : gmap string string) (api_key : json)
  : string + json :=
  let key :=
    if truthy api_key then api_key
    else JStr (match environ !! "PPLX_API_KEY" with
               | Some v => v
               | None => ""
               end) in
  if truthy key then inr key else inl KEY_ERROR.

(** [initialize_api]: its result, the key of [self.api] afterwards, and
    what it prints. *)
Definition initialize_api (environ : gmap string string)
    (_config : gmap string json) : bool * option json * list string :=
  match api_init environ (ConfigStore.api_key environ _config) with
  | inr key => (true, Some key, [])
  | inl message =>
      (false, None,
       ["[red]Error: " ++ message ++ "[/red]";
        "[yellow]Set PPLX_API_KEY environment variable to continue.[/yellow]"])
  end.

End Startup.

(** ** Vocabulary of the specification *)

(** [ceil(L / 4)], the fallback estimate as the specification words it. *)
Definition ceil_quarter (L : nat) : Z := (Z.of_nat L + 3) / 4.

(** The session after a rewrite of the history with the summary value
    [summary]: the summary message, then the last 4 messages. *)
Definition rewritten (rt : runtime) (self : PerplexityCLI.t) (summary : json)
  : Session.t :=
  Session.Make
    (Message "system"
       ("Previous conversation summary: " ++ PerplexityCLI.format_value rt summary)
       :: slice_last 4 (Session.messages (PerplexityCLI.session self)))
    (Session.current_file (PerplexityCLI.session self))
    (now_isoformat rt)
    (Session.model (PerplexityCLI.session self)).

(** The outbound messages of a turn, as [chat] builds them: the system
    prompt, the history, the new user turn. *)
Definition outbound (self : PerplexityCLI.t) (user_input : string)
  : list message :=
  (Message "system" (Config.system_prompt (PerplexityCLI.config self))
     :: Session.messages (PerplexityCLI.session self)
     ++ [Message "user" user_input])%list.

(** A JSON value that is neither a container nor a string. *)
Definition scalar (v : json) : bool :=
  match v with
  | JNull | JBool _ | JNum _ => true
  | _ => false
  end.

(** The concatenation of the fragments of a stream, in order. *)
Definition joined (fragments : list string) : string :=
  fold_right String.append "" fragments.

(** The JSON array of a list of texts. *)
Definition str_array (l : list string) : json := JArr (map JStr l).

(** A parsed body without choices, as the specification lists them: the
    [choices] array is absent or empty.  A body that is not an object
    has no [choices] field. *)
Definition no_choices_as_stated (body : json) : bool :=
  match body with
  | JObj m =>
      match m !! "choices" with
      | None | Some (JArr []) => true
      | Some _ => false
      end
  | _ => true
  end.

Section Lines.

Variable rt : runtime.

(** The payload of an event line: what follows the marker ["data: "] on
    a non-empty line that decodes. *)
Definition event_payload (line : bytes) : option string :=
  match line with
  | [] => None
  | _ :: _ =>
      match utf8_decode rt line with
      | Some line_str =>
          if String.prefix "data: " line_str
          then Some (slice_from 6 line_str)
          else None
      | None => None
      end
  end.

(** The end-of-stream sentinel. *)
Definition is_sentinel (line : bytes) : bool :=
  match event_payload line with
  | Some json_str => String.eqb json_str "[DONE]"
  | None => false
  end.

Definition is_heartbeat (line : bytes) : bool :=
  match line, utf8_decode rt line with
  | _ :: _, Some line_str => negb (String.prefix "data: " line_str)
  | _, _ => false
  end.

Definition is_malformed (line : bytes) : bool :=
  match event_payload line with
  | Some json_str =>
      negb (String.eqb json_str "[DONE]")
      && match json_loads rt json_str with
         | Raised JSONDecodeError => true
         | _ => false
         end
  | None => false
  end.

(** Noise that the decoder skips: a blank line, a line of text without
    the event marker, or an event line other than the sentinel on whose
    payload [json.loads] raises [JSONDecodeError].  A payload on which
    the parser fails in another way is not noise. *)
Definition is_noise (line : bytes) : bool :=
  match line with
  | [] => true
  | _ :: _ => is_heartbeat line || is_malformed line
  end.

(** Noise read off the raw line alone, as the specification lists it: a
    blank line, a line that is not text starting with ["data: "], or a
    line starting with ["data: "] whose payload [json.loads] rejects. *)
Definition is_noise_as_stated (line : bytes) : bool :=
  match line with
  | [] => true
  | _ :: _ =>
      match event_payload line with
      | None => true
      | Some json_str =>
          match json_loads rt json_str with
          | Raised JSONDecodeError => true
          | _ => false
          end
      end
  end.

(** [noisy] is [clean] with lines satisfying [P] inserted anywhere. *)
Inductive interspersed (P : bytes -> bool) : list bytes -> list bytes -> Prop :=
| interspersed_nil : interspersed P [] []
| interspersed_keep line clean noisy :
    interspersed P clean noisy ->
    interspersed P (line :: clean) (line :: noisy)
| interspersed_insert line clean noisy :
    P line = true ->
    interspersed P clean noisy ->
    interspersed P clean (line :: noisy).

(** An event record as the completion endpoint documents it: an object
    whose [choices], if present, is an array whose first element is an
    object whose [delta], if present, is an object whose [content], if
    present, is a string. *)
Definition well_formed_choice (c : json) : bool :=
  match c with
  | JObj m =>
      match m !! "delta" with
      | None => true
      | Some (JObj d) =>
          match d !! "content" with
          | None | Some (JStr _) => true
          | Some _ => false
          end
      | Some _ => false
      end
  | _ => false
  end.

Definition well_formed_event (chunk : json) : bool :=
  match chunk with
  | JObj m =>
      match m !! "choices" with
      | None | Some (JArr []) => true
      | Some (JArr (c :: _)) => well_formed_choice c
      | Some _ => false
      end
  | _ => false
  end.

(** The event record a line carries, if it carries one. *)
Definition event_of (line : bytes) : option json :=
  match event_payload line with
  | Some json_str =>
      if String.eqb json_str "[DONE]" then None
      else match json_loads rt json_str with
           | Returned chunk => Some chunk
           | Raised _ => None
           end
  | None => None
  end.

(** A line of a well-formed stream: noise, the sentinel, or a
    well-formed event record. *)
Definition well_formed_line (line : bytes) : bool :=
  is_noise line || is_sentinel line
  || match event_of line with
     | Some chunk => well_formed_event chunk
     | None => false
     end.

(** The line carries an event record with a [citations] field [v]. *)
Definition cites (line : bytes) (v : json) : Prop :=
  exists m, event_of line = Some (JObj m) /\ m !! "citations" = Some v.

(** The line carries no [citations] field. *)
Definition cites_nothing (line : bytes) : bool :=
  match event_of line with
  | Some (JObj m) => negb (bool_decide (is_Some (m !! "citations")))
  | Some _ => false
  | None => true
  end.

(** A well-formed line that does not end the stream. *)
Definition goes_on (line : bytes) : Prop :=
  well_formed_line line = true /\ is_sentinel line = false.

(** A well-formed line that carries no [citations] field. *)
Definition quiet (line : bytes) : Prop :=
  well_formed_line line = true /\ cites_nothing line = true.

(** Lines satisfying [P] may be inserted anywhere in the body of any
    response without changing what the decoder yields or how it ends. *)
Definition noise_insensitive (P : bytes -> bool) : Prop :=
  forall status body error clean noisy,
    interspersed P clean noisy ->
    PerplexityAPI.consume_stream rt (Response status body noisy error)
    = PerplexityAPI.consume_stream rt (Response status body clean error).

End Lines.

(** ** Concrete worlds to run the program in *)

Module Fixture.

Definition quoted (s : string) : string :=
  String "034"%char (s ++ String "034"%char "").

(** A line of 7-bit text as the transport delivers it. *)
Definition line_of (s : string) : bytes := list_byte_of_string s.

(** The UTF-8 codec on 7-bit text, where it is the identity; the byte
    [xff], used below, occurs in no UTF-8 text. *)
Definition decode_7bit (line : bytes) : option string :=
  if forallb (fun b => (Byte.to_N b <? 128)%N) line
  then Some (string_of_list_byte line)
  else None.

Definition delta_text (fragment : string) : string :=
  "{" ++ quoted "choices" ++ ":[{" ++ quoted "delta" ++ ":{"
      ++ quoted "content" ++ ":" ++ quoted fragment ++ "}}]}".
Definition delta_value (fragment : string) : json :=
  JObj {[ "choices" :=
            JArr [JObj {[ "delta" := JObj {[ "content" := JStr fragment ]} ]}] ]}.

Definition citations_text (url : string) : string :=
  "{" ++ quoted "citations" ++ ":[" ++ quoted url ++ "]}".
Definition citations_value (url : string) : json :=
  JObj {[ "citations" := JArr [JStr url] ]}.

Definition message_text (body : string) : string :=
  "{" ++ quoted "choices" ++ ":[{" ++ quoted "message" ++ ":{"
      ++ quoted "content" ++ ":" ++ quoted body ++ "}}]}".
Definition message_value (body : string) : json :=
  JObj {[ "choices" :=
            JArr [JObj {[ "message" := JObj {[ "content" := JStr body ]} ]}] ]}.

(** [json.loads] on the texts used below; every other text is rejected,
    as the sentinel and the text [oops] are by the real parser. *)
Definition loads_table : list (string * json) :=
  [ (delta_text "Hel", delta_value "Hel");
    (delta_text "lo", delta_value "lo");
    (citations_text "https://a.example", citations_value "https://a.example");
    (citations_text "https://b.example", citations_value "https://b.example");
    (message_text "They greeted each other.",
     message_value "They greeted each other.");
    ("{}", JObj ∅);
    ("[]", JArr []) ].

Fixpoint loads_in (table : list (string * json)) (s : string) : outcome json :=
  match table with
  | [] => Raised JSONDecodeError
  | (k, v) :: table' => if String.eqb k s then Returned v else loads_in table' s
  end.

Definition describe (e : exn) : string :=
  match e with
  | HTTPError _ => "HTTP error"
  | RequestException detail => detail
  | JSONDecodeError => "Expecting value"
  | _ => "error"
  end.

(** A world without tokenizer in which every request gets the answer
    [answer]. *)
Definition world (answer : outcome response) : runtime :=
  Runtime false (fun _ => None) decode_7bit (loads_in loads_table)
          (fun _ => answer) "2024-01-01T00:00:00" describe (fun _ => "").

Definition ok_stream (lines : list bytes) : response :=
  Response 200 "" lines None.
Definition ok_body (body : string) : response :=
  Response 200 body [] None.

Definition offline : runtime := world (Raised (RequestException "connection refused")).

Definition done_line : bytes := line_of "data: [DONE]".
Definition delta_line (fragment : string) : bytes :=
  line_of ("data: " ++ delta_text fragment).
Definition citations_line (url : string) : bytes :=
  line_of ("data: " ++ citations_text url).

(** Six messages of twelve characters each: 18 tokens by the fallback
    estimate. *)
Definition six_messages : list message :=
  [ Message "user" "hello there!";
    Message "assistant" "hi, welcome!";
    Message "user" "how are you?";
    Message "assistant" "fine, thanks";
    Message "user" "what is new?";
    Message "assistant" "not a thing." ].

Definition app_with (limit : Z) (history : list message) : PerplexityCLI.t :=
  PerplexityCLI.Make
    (Config.Make "sonar-pro" "You are a helpful AI assistant." limit)
    (Session.Make history None "2023-12-31T23:59:59" "sonar-pro")
    (Some "pplx-key") [].

End Fixture.

(** More worlds, for the properties beyond the specification. *)
Module Scenario.

Import Fixture.

(** An event whose delta content is [null]. *)
Definition null_delta_text : string :=
  "{" ++ quoted "choices" ++ ":[{" ++ quoted "delta" ++ ":{"
      ++ quoted "content" ++ ":null}}]}".
Definition null_delta_value : json :=
  JObj {[ "choices" :=
            JArr [JObj {[ "delta" := JObj {[ "content" := JNull ]} ]}] ]}.

(** An answer with two choices and citations. *)
Definition answer_text : string :=
  "{" ++ quoted "citations" ++ ":[" ++ quoted "https://a.example" ++ "],"
      ++ quoted "choices" ++ ":[{" ++ quoted "message" ++ ":{"
      ++ quoted "content" ++ ":" ++ quoted "Paris." ++ "}},{"
      ++ quoted "message" ++ ":{" ++ quoted "content" ++ ":"
      ++ quoted "Lyon." ++ "}}]}".
Definition answer_value : json :=
  JObj {[ "citations" := JArr [JStr "https://a.example"];
          "choices" :=
            JArr [JObj {[ "message" := JObj {[ "content" := JStr "Paris." ]} ]};
                  JObj {[ "message" := JObj {[ "content" := JStr "Lyon." ]} ]}] ]}.

Definition loads_table : list (string * json) :=
  [ ("null", JNull);
    ("5", JNum (Qmake 5 1));
    (null_delta_text, null_delta_value);
    (answer_text, answer_value) ].

Definition world (answer : outcome response) : runtime :=
  Runtime false (fun _ => None) decode_7bit
          (loads_in (loads_table ++ Fixture.loads_table)%list)
          (fun _ => answer) "2024-01-01T00:00:00" describe (fun _ => "").

(** A world with a tokenizer of one token per character, which fails on
    the empty text. *)
Definition tokenized : runtime :=
  Runtime true
          (fun text => if String.eqb text "" then None
                       else Some (map (fun _ => 0) (list_ascii_of_string text)))
          decode_7bit (loads_in Fixture.loads_table)
          (fun _ => Raised (RequestException "connection refused"))
          "2024-01-01T00:00:00" describe (fun _ => "").

Definition unavailable : response := Response 503 "" [delta_line "Hel"] None.

Definition hello_stream : response :=
  ok_stream [delta_line "Hel"; delta_line "lo"; done_line].

Definition interrupted : response :=
  Response 200 "" [delta_line "Hel"; delta_line "lo"]
           (Some (RequestException "connection reset")).

(** A payload nested deeper than the parser's recursion limit allows: on
    it [json.loads] raises [RecursionError] before it finds the text
    incomplete. *)
Definition deep_text : string := string_of_list_ascii (repeat "["%char 2000).

Definition loads_bounded (s : string) : outcome json :=
  if String.eqb s deep_text then Raised RecursionError
  else loads_in (loads_table ++ Fixture.loads_table)%list s.

Definition bounded : runtime :=
  Runtime false (fun _ => None) decode_7bit loads_bounded
          (fun _ => Raised (RequestException "connection refused"))
          "2024-01-01T00:00:00" describe (fun _ => "").

Definition deep_line : bytes := line_of ("data: " ++ deep_text).

End Scenario.

(** * Properties *)

(** ** Token estimate *)

Section TokenFacts.

Variable rt : runtime.

Lemma sum_from_left (f : message -> Z) (l : list message) (acc : Z) :
  fold_left (fun a m => a + f m) l acc = acc + fold_right Z.add 0 (map f l).
Proof.
  revert acc. induction l as [|m l IH]; intros acc; simpl.
  - lia.
  - rewrite IH. lia.
Qed.

Lemma get_messages_token_count_sum (messages : list message) :
  get_messages_token_count rt messages
  = fold_right Z.add 0 (map (fun m => count_tokens rt (content m)) messages).
Proof.
  unfold get_messages_token_count.
  rewrite (sum_from_left (fun m => count_tokens rt (content m))). lia.
Qed.

Lemma fallback_estimate_floor (text : string) :
  4 * fallback_estimate text <= Z.of_nat (String.length text)
    < 4 * fallback_estimate text + 4.
Proof.
  unfold fallback_estimate.
  pose proof (Z.div_mod (Z.of_nat (String.length text)) 4 ltac:(lia)) as Hdm.
  pose proof (Z.mod_pos_bound (Z.of_nat (String.length text)) 4 ltac:(lia)).
  lia.
Qed.

Lemma floor_quarter_ceil (L : nat) :
  Z.of_nat (L / 4)%nat
  = ceil_quarter L - (if (L mod 4 =? 0)%nat then 0 else 1).
Proof.
  unfold ceil_quarter.
  pose proof (Nat.div_mod_eq L 4) as Hdm.
  pose proof (Nat.mod_upper_bound L 4 ltac:(lia)) as Hlt.
  set (q := (L / 4)%nat) in *. set (r := (L mod 4)%nat) in *.
  destruct (Nat.eqb_spec r 0) as [Hz|Hnz].
  - rewrite Z.sub_0_r.
    apply Z.div_unique with (r := 3); lia.
  - assert (Hq : (Z.of_nat L + 3) / 4 = Z.of_nat q + 1).
    { symmetry. apply Z.div_unique with (r := Z.of_nat r - 1); lia. }
    lia.
Qed.

(** C1 (as amended).  Without tokenizer the estimate of a text of [L]
    characters is the quotient of [L] by 4 rounded down, that is the
    only [n] with [4 n <= L < 4 n + 4]; it is [ceil(L / 4)] exactly when
    4 divides [L], and one less otherwise.  The count of a message list
    is the sum of the estimates of its messages. *)
Theorem count_tokens_fallback_floor (text : string) (messages : list message) :
  TIKTOKEN_AVAILABLE rt = false ->
  let L := String.length text in
  count_tokens rt text = Z.of_nat (L / 4)%nat
  /\ 4 * count_tokens rt text <= Z.of_nat L < 4 * count_tokens rt text + 4
  /\ count_tokens rt text
     = ceil_quarter L - (if (L mod 4 =? 0)%nat then 0 else 1)
  /\ get_messages_token_count rt messages
     = fold_right Z.add 0
         (map (fun m => Z.of_nat (String.length (content m) / 4)%nat) messages).
Proof.
  intros Hno L.
  assert (Hct : forall t, count_tokens rt t = Z.of_nat (String.length t / 4)%nat).
  { intros t. unfold count_tokens. rewrite Hno. unfold fallback_estimate.
    rewrite Nat2Z.inj_div. reflexivity. }
  split; [apply Hct|].
  split.
  { unfold count_tokens. rewrite Hno. apply fallback_estimate_floor. }
  split.
  { rewrite Hct. apply floor_quarter_ceil. }
  rewrite get_messages_token_count_sum.
  f_equal. apply map_ext. intros m. apply Hct.
Qed.

End TokenFacts.

Lemma count_tokens_fallback_floor_witness :
  TIKTOKEN_AVAILABLE Fixture.offline = false
  /\ count_tokens Fixture.offline "hello" = 1
  /\ get_messages_token_count Fixture.offline Fixture.six_messages = 18.
Proof.
  destruct (count_tokens_fallback_floor Fixture.offline "hello"
              Fixture.six_messages eq_refl) as (H1 & _ & _ & H4).
  split; [reflexivity|]. split; [exact H1 | exact H4].
Defined.

(** C1 (as stated) fails: without tokenizer the five characters of
    [hello] are estimated at 1 token, and [ceil(5 / 4)] is 2. *)
Lemma count_tokens_not_ceil :
  TIKTOKEN_AVAILABLE Fixture.offline = false
  /\ count_tokens Fixture.offline "hello" = 1
  /\ ceil_quarter (String.length "hello") = 2
  /\ count_tokens Fixture.offline "hello" <> ceil_quarter (String.length "hello").
Proof.
  repeat split; try reflexivity. vm_compute. discriminate.
Qed.

(** ** The stream decoder *)

Section StringFacts.

Lemma append_cons (a : ascii) (s t : string) :
  String a s ++ t = String a (s ++ t).
Proof. reflexivity. Qed.

Lemma append_nil_l (s : string) : "" ++ s = s.
Proof. reflexivity. Qed.

Lemma append_nil_r (s : string) : s ++ "" = s.
Proof.
  induction s as [|a s IH]; [reflexivity|].
  now rewrite append_cons, IH.
Qed.

Lemma append_assoc (s t u : string) : (s ++ t) ++ u = s ++ (t ++ u).
Proof.
  induction s as [|a s IH]; [reflexivity|].
  now rewrite !append_cons, IH.
Qed.

Lemma joined_app (xs ys : list string) :
  joined (xs ++ ys)%list = joined xs ++ joined ys.
Proof.
  induction xs as [|x xs IH]; simpl; [reflexivity|].
  rewrite IH. symmetry. apply append_assoc.
Qed.

Lemma truthy_str (s : string) : truthy (JStr s) = true -> s <> "".
Proof.
  simpl. intros H ->. discriminate.
Qed.

End StringFacts.

Section StreamFacts.

Variable rt : runtime.
Import PerplexityAPI.

Ltac crush_chunk :=
  unfold stream_chunk, bind, contains, getitem, getitem0, get;
  repeat (case_match; try (intros; discriminate)); intros; simplify_eq.

(** What a chunk yields is appended to [full_content], and is never the
    empty text. *)
Lemma stream_chunk_yield chunk c f c' f' ys :
  stream_chunk chunk c f = Returned (c', f', ys) ->
  f' = f ++ joined ys /\ Forall (fun y => y <> "") ys.
Proof.
  crush_chunk; simpl; rewrite ?append_nil_r; split; auto.
  all: try (constructor; [|constructor]; apply truthy_str; assumption).
Qed.

(** Nothing after [json.loads] raises what the [except] clause catches:
    the clause only ever sees the parser's own failure. *)
Lemma stream_chunk_not_caught chunk c f :
  stream_chunk chunk c f <> Raised JSONDecodeError.
Proof. crush_chunk; discriminate. Qed.

Lemma stream_line_yield line c f c' f' ys :
  stream_line rt line c f = Continue c' f' ys ->
  f' = f ++ joined ys /\ Forall (fun y => y <> "") ys.
Proof.
  unfold stream_line. intros H.
  assert (Hnil : f = f ++ joined [] /\ Forall (fun y : string => y <> "") []).
  { simpl. rewrite append_nil_r. split; [reflexivity | constructor]. }
  repeat case_match; simplify_eq; try exact Hnil.
  match goal with
  | Hb : bind _ _ = Returned _ |- _ =>
      unfold bind in Hb; destruct (json_loads rt _); [|discriminate];
      apply stream_chunk_yield in Hb; exact Hb
  end.
Qed.

Lemma stream_lines_yield lines error c f ys final :
  stream_lines rt lines error c f = (ys, final) ->
  Forall (fun y => y <> "") ys
  /\ forall c' f', final = Returned (c', f') -> f' = f ++ joined ys.
Proof.
  revert c f ys final.
  induction lines as [|line rest IH]; intros c f ys final; simpl.
  - intros [= <- <-]. split; [constructor|].
    intros c' f' H. destruct error; simplify_eq. simpl.
    now rewrite append_nil_r.
  - destruct (stream_line rt line c f) as [c1 f1 ys1| |e] eqn:Hline.
    + destruct (stream_lines rt rest error c1 f1) as [more fin] eqn:Hrest.
      intros [= <- <-].
      apply stream_line_yield in Hline as [-> Hne1].
      apply IH in Hrest as [Hne Hfin].
      split; [apply Forall_app; auto|].
      intros c' f' Hf. rewrite (Hfin _ _ Hf), joined_app.
      apply append_assoc.
    + intros [= <- <-]. split; [constructor|].
      intros c' f' [= <- <-]. simpl. now rewrite append_nil_r.
    + intros [= <- <-]. split; [constructor|]. discriminate.
Qed.

(** *** How the loop body treats each kind of line *)

#[local] Arguments slice_from : simpl never.
#[local] Arguments String.prefix : simpl never.
#[local] Arguments String.eqb : simpl never.

(** Case analysis along the tests of the loop body. *)
Ltac split_line line :=
  unfold is_noise, is_heartbeat, is_malformed, is_sentinel, well_formed_line,
    cites_nothing, event_of, event_payload, stream_line, bind;
  destruct line as [|b line']; simpl;
  [| destruct (utf8_decode rt (b :: line')) as [line_str|] eqn:Hdec; simpl;
     [ destruct (String.prefix "data: " line_str) eqn:Hpre; simpl;
       [ destruct (String.eqb (slice_from 6 line_str) "[DONE]") eqn:Hdone;
         simpl;
         [| let err := fresh "err" in
            destruct (json_loads rt (slice_from 6 line_str))
              as [?parsed|err] eqn:Hloads; simpl; [| destruct err] ]
       |]
     |] ];
  try done.

Lemma stream_line_noise line c f :
  is_noise rt line = true -> stream_line rt line c f = Continue c f [].
Proof. split_line line. Qed.

Lemma stream_line_sentinel line c f :
  is_sentinel rt line = true -> stream_line rt line c f = Break.
Proof. split_line line. Qed.

Lemma stream_line_event line chunk c f :
  event_of rt line = Some chunk ->
  stream_line rt line c f
  = match stream_chunk chunk c f with
    | Returned (c', f', ys) => Continue c' f' ys
    | Raised e => Throw e
    end.
Proof.
  pose proof (stream_chunk_not_caught chunk c f) as Hnc.
  split_line line. intros [= ->].
  destruct (stream_chunk chunk c f) as [[[c' f'] ys]|e]; [done|].
  destruct e; done.
Qed.

Lemma stream_chunk_well_formed chunk c f :
  well_formed_event chunk = true ->
  exists f' ys,
    stream_chunk chunk c f
    = Returned (match chunk with
                | JObj m => match m !! "citations" with
                            | Some v => v
                            | None => c
                            end
                | _ => c
                end, f', ys).
Proof.
  unfold well_formed_event, well_formed_choice.
  destruct chunk as [| | | | |m]; try discriminate.
  unfold stream_chunk, bind, contains, getitem, getitem0, get.
  intros Hwf.
  destruct (m !! "citations") as [v|] eqn:Hc;
    destruct (m !! "choices") as [ch|] eqn:Hch; simpl;
    repeat (case_match; simplify_eq/=); eauto.
Qed.

Lemma stream_line_not_sentinel line c f :
  is_sentinel rt line = false -> stream_line rt line c f <> Break.
Proof.
  split_line line; intros _.
  all: destruct (stream_chunk _ _ _) as [[[c' f'] ys]|e]; try done.
  all: destruct e; done.
Qed.

(** A well-formed line other than the sentinel lets the loop go on; the
    citation list is replaced exactly when the line carries one. *)
Lemma stream_line_well_formed line c f :
  well_formed_line rt line = true ->
  is_sentinel rt line = false ->
  exists f' ys,
    stream_line rt line c f
    = Continue (match event_of rt line with
                | Some (JObj m) => match m !! "citations" with
                                   | Some v => v
                                   | None => c
                                   end
                | _ => c
                end) f' ys.
Proof.
  intros Hwf Hns.
  destruct (is_noise rt line) eqn:Hnoise.
  - rewrite (stream_line_noise _ _ _ Hnoise).
    assert (event_of rt line = None) as ->; [|eauto].
    revert Hnoise. clear. split_line line.
  - unfold well_formed_line in Hwf. rewrite Hnoise, Hns in Hwf. simpl in Hwf.
    destruct (event_of rt line) as [chunk|] eqn:Hev; [|done].
    rewrite (stream_line_event _ _ _ _ Hev).
    destruct (stream_chunk_well_formed chunk c f Hwf) as (f' & ys & ->).
    exists f', ys. reflexivity.
Qed.

(** *** Whole streams *)

(** Well-formed lines before the sentinel are all consumed. *)
Lemma stream_lines_app pre c f :
  Forall (goes_on rt) pre ->
  exists c' f' ys,
    forall rest error,
      stream_lines rt (pre ++ rest)%list error c f
      = let (more, final) := stream_lines rt rest error c' f' in
        ((ys ++ more)%list, final).
Proof.
  intros Hpre. revert c f.
  induction Hpre as [|line pre [Hwf Hns] _ IH]; intros c f.
  - exists c, f, []. intros rest error. simpl.
    now destruct (stream_lines rt rest error c f).
  - destruct (stream_line_well_formed line c f Hwf Hns) as (f1 & ys1 & Hline).
    destruct (IH (match event_of rt line with
                  | Some (JObj m) => match m !! "citations" with
                                     | Some v => v
                                     | None => c
                                     end
                  | _ => c
                  end) f1) as (c2 & f2 & ys2 & Hrest).
    exists c2, f2, (ys1 ++ ys2)%list. intros rest error.
    simpl. rewrite Hline, Hrest.
    destruct (stream_lines rt rest error c2 f2) as [more final].
    now rewrite app_assoc.
Qed.

(** A well-formed stream that reaches the sentinel, or ends without a
    transport failure, returns. *)
Lemma stream_lines_returns lines error c f :
  Forall (fun line => well_formed_line rt line = true) lines ->
  error = None \/ Exists (fun line => is_sentinel rt line = true) lines ->
  exists ys st, stream_lines rt lines error c f = (ys, Returned st).
Proof.
  intros Hwf. revert c f.
  induction Hwf as [|line lines Hline _ IH]; intros c f Hend.
  - destruct Hend as [->|Hex]; [simpl; eauto | inversion Hex].
  - simpl. destruct (is_sentinel rt line) eqn:Hs.
    + rewrite (stream_line_sentinel _ _ _ Hs). eauto.
    + destruct (stream_line_well_formed line c f Hline Hs) as (f1 & ys1 & ->).
      match goal with
      | |- context [stream_lines rt lines error ?c1 f1] =>
          destruct (IH c1 f1) as (ys & st & ->)
      end.
      * destruct Hend as [?|Hex]; [now left | right].
        inversion Hex; subst; [congruence | assumption].
      * eauto.
Qed.

(** Lines without a [citations] field leave the citation list alone. *)
Lemma stream_lines_quiet lines error c f ys c' f' :
  Forall (quiet rt) lines ->
  stream_lines rt lines error c f = (ys, Returned (c', f')) ->
  c' = c.
Proof.
  intros Hq. revert c f ys.
  induction Hq as [|line lines [Hwf Hcn] _ IH]; intros c f ys; simpl.
  - destruct error; intros [= <- ]; congruence.
  - destruct (is_sentinel rt line) eqn:Hs.
    + rewrite (stream_line_sentinel _ _ _ Hs). now intros [= _ <- _].
    + destruct (stream_line_well_formed line c f Hwf Hs) as (f1 & ys1 & ->).
      assert (Hsame : match event_of rt line with
                      | Some (JObj m) => match m !! "citations" with
                                         | Some v => v
                                         | None => c
                                         end
                      | _ => c
                      end = c).
      { unfold cites_nothing in Hcn.
        destruct (event_of rt line) as [[| | | | |m]|]; try reflexivity.
        destruct (m !! "citations") eqn:Hm; [|reflexivity].
        rewrite bool_decide_eq_true_2 in Hcn by eauto. discriminate. }
      rewrite Hsame.
      destruct (stream_lines rt lines error c f1) as [more final] eqn:Hrest.
      intros [= <- ->]. eapply IH; eassumption.
Qed.

Lemma stream_lines_interspersed clean noisy error :
  interspersed (is_noise rt) clean noisy ->
  forall c f,
    stream_lines rt noisy error c f = stream_lines rt clean error c f.
Proof.
  induction 1 as [|line clean noisy _ IH|line clean noisy Hnoise _ IH];
    intros c f.
  - reflexivity.
  - simpl. destruct (stream_line rt line c f); [|reflexivity..].
    now rewrite IH.
  - simpl. rewrite (stream_line_noise _ _ _ Hnoise), IH.
    now destruct (stream_lines rt clean error c f).
Qed.

Lemma stream_lines_cut before last after error c f :
  is_sentinel rt last = true ->
  stream_lines rt (before ++ last :: after)%list error c f
  = stream_lines rt before None c f.
Proof.
  intros Hs. revert c f.
  induction before as [|line before IH]; intros c f; simpl.
  - now rewrite (stream_line_sentinel _ _ _ Hs).
  - destruct (stream_line rt line c f); [|reflexivity..].
    now rewrite IH.
Qed.

Lemma str_array_inj (A B : list string) : str_array A = str_array B -> A = B.
Proof.
  unfold str_array. intros [= H]. revert B H.
  induction A as [|a A IH]; intros [|b B] H; simplify_eq/=; [done|].
  f_equal. now apply IH.
Qed.

Lemma result_citations (c : json) (f : string) :
  ({[ "citations" := c; "content" := JStr f ]} : gmap string json)
    !! "citations" = Some c.
Proof. apply lookup_insert_eq. Qed.

Lemma result_content (c : json) (f : string) :
  ({[ "citations" := c; "content" := JStr f ]} : gmap string json)
    !! "content" = Some (JStr f).
Proof. rewrite lookup_insert_ne by done. apply lookup_singleton_eq. Qed.

(** *** The claims about the decoder *)

(** C5.  On a response with a success status whose lines are well formed
    and end in the sentinel, the decoder returns a result; the
    concatenation of the fragments it yielded, in order, is the
    [content] of that result, and no fragment is empty. *)
Theorem stream_fragments_concatenate r body last :
  raise_for_status r = Returned tt ->
  iter_lines r = (body ++ [last])%list ->
  is_sentinel rt last = true ->
  Forall (fun line => well_formed_line rt line = true) body ->
  exists fragments result,
    consume_stream rt r = (fragments, Returned result)
    /\ result !! "content" = Some (JStr (joined fragments))
    /\ Forall (fun y => y <> "") fragments.
Proof.
  intros Hst Hlines Hs Hwf.
  unfold consume_stream. rewrite Hst, Hlines.
  destruct (stream_lines_returns (body ++ [last])%list
              (iter_lines_error r) (JArr []) "") as (ys & [c f] & Hrun).
  - apply Forall_app. split; [assumption|].
    constructor; [|constructor].
    unfold well_formed_line. rewrite Hs. now rewrite orb_true_r.
  - right. apply Exists_app. right. now constructor.
  - rewrite Hrun.
    destruct (stream_lines_yield _ _ _ _ _ _ Hrun) as [Hne Hcat].
    specialize (Hcat _ _ eq_refl). rewrite append_nil_l in Hcat. subst f.
    eexists _, _. split; [reflexivity|]. split; [|assumption].
    apply result_content.
Qed.

(** C6.  When a line carrying the citation list [A] is followed, later
    in the stream, by a line carrying the citation list [B] and no line
    after that carries one, the [citations] of the result are [B]: not
    [A], and not [A] followed by [B]. *)
Theorem citations_last_write_wins r pre mid post lineA lineB (A B : list string) :
  raise_for_status r = Returned tt ->
  iter_lines r = (pre ++ lineA :: mid ++ lineB :: post)%list ->
  Forall (goes_on rt) (pre ++ lineA :: mid ++ [lineB])%list ->
  cites rt lineA (str_array A) ->
  cites rt lineB (str_array B) ->
  Forall (quiet rt) post ->
  iter_lines_error r = None
    \/ Exists (fun line => is_sentinel rt line = true) post ->
  A <> [] -> B <> [] -> A <> B ->
  exists fragments result,
    consume_stream rt r = (fragments, Returned result)
    /\ result !! "citations" = Some (str_array B)
    /\ result !! "citations" <> Some (str_array A)
    /\ result !! "citations" <> Some (str_array (A ++ B)%list).
Proof.
  intros Hst Hlines Hgo _ (m & Hev & Hm) Hquiet Hend HA HB HAB.
  unfold consume_stream. rewrite Hst, Hlines.
  replace (pre ++ lineA :: mid ++ lineB :: post)%list
    with ((pre ++ lineA :: mid) ++ lineB :: post)%list
    by (now rewrite <- app_assoc).
  replace (pre ++ lineA :: mid ++ [lineB])%list
    with ((pre ++ lineA :: mid) ++ [lineB])%list in Hgo
    by (now rewrite <- app_assoc).
  apply Forall_app in Hgo as [Hgo HgoB].
  apply Forall_inv in HgoB as [HwfB HnsB].
  destruct (stream_lines_app _ (JArr []) "" Hgo) as (c1 & f1 & ys1 & Hpre).
  rewrite Hpre. simpl.
  destruct (stream_line_well_formed lineB c1 f1 HwfB HnsB) as (f2 & ys2 & HB2).
  rewrite Hev, Hm in HB2. rewrite HB2.
  destruct (stream_lines_returns post (iter_lines_error r) (str_array B) f2)
    as (ys3 & [c3 f3] & Hpost); [|assumption|].
  { eapply Forall_impl; [exact Hquiet|]. now intros line [Hwf _]. }
  rewrite Hpost.
  assert (c3 = str_array B) as -> by (eapply stream_lines_quiet; eassumption).
  eexists _, _. split; [reflexivity|]. simpl.
  rewrite result_citations.
  split; [reflexivity|].
  split; intros Heq; apply (inj Some), str_array_inj in Heq.
  - now apply HAB.
  - apply HA. apply (f_equal length) in Heq.
    rewrite length_app in Heq. destruct A; [reflexivity | simpl in Heq; lia].
Qed.

(** C7 (as amended).  Blank lines, lines of text without the marker
    ["data: "], and event lines other than the sentinel on whose payload
    [json.loads] raises [JSONDecodeError] can be inserted anywhere in
    the body of a response: the decoder yields the same fragments and
    ends the same way, with the same result or the same exception. *)
Theorem noise_is_skipped status body error clean noisy :
  interspersed (is_noise rt) clean noisy ->
  consume_stream rt (Response status body noisy error)
  = consume_stream rt (Response status body clean error).
Proof.
  intros Hins. unfold consume_stream. simpl.
  destruct (raise_for_status _); [|reflexivity].
  simpl. now rewrite (stream_lines_interspersed _ _ _ Hins).
Qed.

(** C8.  A sentinel line ends the stream: the decoder behaves as if the
    body stopped, without failure, right before it, whatever follows.
    When the lines before it are well formed and none of them is a
    sentinel, the decoder returns a result. *)
Theorem sentinel_ends_stream r before last after :
  iter_lines r = (before ++ last :: after)%list ->
  is_sentinel rt last = true ->
  consume_stream rt r
  = consume_stream rt (Response (status_code r) (text r) before None)
  /\ (raise_for_status r = Returned tt ->
      Forall (goes_on rt) before ->
      exists fragments result,
        consume_stream rt r = (fragments, Returned result)).
Proof.
  intros Hlines Hs.
  assert (Hcut : consume_stream rt r
                 = consume_stream rt
                     (Response (status_code r) (text r) before None)).
  { unfold consume_stream, raise_for_status. simpl. rewrite Hlines.
    now rewrite (stream_lines_cut _ _ _ _ _ _ Hs). }
  split; [exact Hcut|].
  intros Hst Hgo. rewrite Hcut.
  unfold consume_stream.
  replace (raise_for_status (Response (status_code r) (text r) before None))
    with (raise_for_status r) by reflexivity.
  rewrite Hst. simpl.
  destruct (stream_lines_returns before None (JArr []) "")
    as (ys & st & ->); [|now left|eauto].
  eapply Forall_impl; [exact Hgo|]. now intros line [Hwf _].
Qed.

End StreamFacts.

(** *** The decoder on concrete streams *)

Section StreamRuns.

Import PerplexityAPI Fixture.

Let rt := offline.

(** End-to-end scenario 1 of the specification. *)
Example scenario_hello :
  consume_stream rt (ok_stream [delta_line "Hel"; delta_line "lo"; done_line])
  = (["Hel"; "lo"],
     Returned {[ "citations" := JArr []; "content" := JStr "Hello" ]}).
Proof. vm_compute. reflexivity. Qed.

(** The sentinel is itself an event line that [json.loads] rejects, but
    it is not skipped: placed before an event it silences it. *)
Example sentinel_is_not_skipped :
  is_noise_as_stated rt done_line = true
  /\ consume_stream rt (ok_stream [done_line; delta_line "Hel"; done_line])
     = ([], Returned {[ "citations" := JArr []; "content" := JStr "" ]})
  /\ consume_stream rt (ok_stream [delta_line "Hel"; done_line])
     = (["Hel"], Returned {[ "citations" := JArr []; "content" := JStr "Hel" ]}).
Proof. repeat split; vm_compute; reflexivity. Qed.

End StreamRuns.

Lemma stream_fragments_concatenate_witness :
  let rt := Fixture.offline in
  let body := [Fixture.delta_line "Hel"; []; Fixture.delta_line "lo"] in
  let r := Fixture.ok_stream (body ++ [Fixture.done_line]) in
  PerplexityAPI.raise_for_status r = Returned tt
  /\ is_sentinel rt Fixture.done_line = true
  /\ Forall (fun line => well_formed_line rt line = true) body
  /\ exists fragments result,
       PerplexityAPI.consume_stream rt r = (fragments, Returned result)
       /\ result !! "content" = Some (JStr (joined fragments))
       /\ Forall (fun y => y <> "") fragments.
Proof.
  intros rt body r.
  assert (Hst : PerplexityAPI.raise_for_status r = Returned tt) by reflexivity.
  assert (Hs : is_sentinel rt Fixture.done_line = true)
    by (vm_compute; reflexivity).
  assert (Hwf : Forall (fun line => well_formed_line rt line = true) body)
    by (repeat constructor; vm_compute; reflexivity).
  repeat split; try assumption.
  exact (stream_fragments_concatenate rt r body Fixture.done_line
           Hst eq_refl Hs Hwf).
Defined.

Lemma citations_last_write_wins_witness :
  let rt := Fixture.offline in
  let lineA := Fixture.citations_line "https://a.example" in
  let lineB := Fixture.citations_line "https://b.example" in
  let mid := [Fixture.delta_line "Hel"] in
  let post := [Fixture.delta_line "lo"; Fixture.done_line] in
  let r := Fixture.ok_stream (lineA :: mid ++ lineB :: post) in
  cites rt lineA (str_array ["https://a.example"])
  /\ cites rt lineB (str_array ["https://b.example"])
  /\ Forall (goes_on rt) (lineA :: mid ++ [lineB])%list
  /\ Forall (quiet rt) post
  /\ exists fragments result,
       PerplexityAPI.consume_stream rt r = (fragments, Returned result)
       /\ result !! "citations" = Some (str_array ["https://b.example"])
       /\ result !! "citations" <> Some (str_array ["https://a.example"])
       /\ result !! "citations"
          <> Some (str_array (["https://a.example"] ++ ["https://b.example"])%list).
Proof.
  intros rt lineA lineB mid post r.
  assert (HA : cites rt lineA (str_array ["https://a.example"])).
  { exists {[ "citations" := JArr [JStr "https://a.example"] ]}.
    split; vm_compute; reflexivity. }
  assert (HB : cites rt lineB (str_array ["https://b.example"])).
  { exists {[ "citations" := JArr [JStr "https://b.example"] ]}.
    split; vm_compute; reflexivity. }
  assert (Hgo : Forall (goes_on rt) ([] ++ lineA :: mid ++ [lineB])%list)
    by (repeat constructor; vm_compute; reflexivity).
  assert (Hq : Forall (quiet rt) post)
    by (repeat constructor; vm_compute; reflexivity).
  repeat split; try assumption.
  apply (citations_last_write_wins rt r [] mid post lineA lineB
           ["https://a.example"] ["https://b.example"]);
    try assumption; try reflexivity; try discriminate.
  now left.
Defined.

Lemma noise_is_skipped_witness :
  let rt := Fixture.offline in
  let clean := [Fixture.delta_line "Hel"; Fixture.delta_line "lo";
                Fixture.done_line] in
  let noisy := [[]; Fixture.delta_line "Hel"; Fixture.line_of ": keep-alive";
                Fixture.delta_line "lo"; Fixture.line_of "data: oops";
                Fixture.done_line; []] in
  interspersed (is_noise rt) clean noisy
  /\ PerplexityAPI.consume_stream rt (Response 200 "" noisy None)
     = PerplexityAPI.consume_stream rt (Response 200 "" clean None).
Proof.
  intros rt clean noisy.
  assert (Hins : interspersed (is_noise rt) clean noisy).
  { apply interspersed_insert; [reflexivity|].
    apply interspersed_keep.
    apply interspersed_insert; [vm_compute; reflexivity|].
    apply interspersed_keep.
    apply interspersed_insert; [vm_compute; reflexivity|].
    apply interspersed_keep.
    apply interspersed_insert; [reflexivity|].
    apply interspersed_nil. }
  split; [exact Hins|].
  exact (noise_is_skipped rt 200 "" None clean noisy Hins).
Defined.

(** C7 (as stated) fails: a line that is not text, here the single byte
    [xff], does not start with ["data: "], yet it is not skipped: decoding
    it raises [UnicodeDecodeError], which ends the stream. *)
Lemma undecodable_line_aborts :
  ~ noise_insensitive Fixture.offline (is_noise_as_stated Fixture.offline).
Proof.
  intros H.
  specialize (H 200 "" None
                [Fixture.delta_line "Hel"; Fixture.done_line]
                [[xff]; Fixture.delta_line "Hel"; Fixture.done_line]).
  assert (Hrun : PerplexityAPI.consume_stream Fixture.offline
                   (Response 200 "" [[xff]; Fixture.delta_line "Hel";
                                     Fixture.done_line] None)
                 = ([], Raised UnicodeDecodeError))
    by (vm_compute; reflexivity).
  rewrite Hrun in H.
  assert (Hclean : PerplexityAPI.consume_stream Fixture.offline
                     (Response 200 "" [Fixture.delta_line "Hel";
                                       Fixture.done_line] None)
                   = (["Hel"],
                      Returned {[ "citations" := JArr [];
                                  "content" := JStr "Hel" ]}))
    by (vm_compute; reflexivity).
  rewrite Hclean in H.
  assert (Heq : ([] : list string, Raised UnicodeDecodeError
                       : outcome (gmap string json))
                = (["Hel"], Returned {[ "citations" := JArr [];
                                        "content" := JStr "Hel" ]})).
  { apply H. apply interspersed_insert; [vm_compute; reflexivity|].
    repeat apply interspersed_keep. apply interspersed_nil. }
  discriminate Heq.
Qed.

Lemma sentinel_ends_stream_witness :
  let rt := Fixture.offline in
  let before := [Fixture.delta_line "Hel"] in
  let after := [Fixture.delta_line "lo"; Fixture.done_line] in
  let r := Fixture.ok_stream (before ++ Fixture.done_line :: after) in
  is_sentinel rt Fixture.done_line = true
  /\ PerplexityAPI.raise_for_status r = Returned tt
  /\ Forall (goes_on rt) before
  /\ PerplexityAPI.consume_stream rt r
     = PerplexityAPI.consume_stream rt (Response 200 "" before None)
  /\ exists fragments result,
       PerplexityAPI.consume_stream rt r = (fragments, Returned result).
Proof.
  intros rt before after r.
  assert (Hs : is_sentinel rt Fixture.done_line = true)
    by (vm_compute; reflexivity).
  assert (Hgo : Forall (goes_on rt) before)
    by (repeat constructor; vm_compute; reflexivity).
  destruct (sentinel_ends_stream rt r before Fixture.done_line after
              eq_refl Hs) as [Hcut Hret].
  split; [exact Hs|]. split; [reflexivity|]. split; [exact Hgo|].
  split; [exact Hcut | exact (Hret eq_refl Hgo)].
Defined.

(** ** The non-streaming call *)

Section SyncFacts.

Variable rt : runtime.
Import PerplexityAPI.

(** What [_sync_response] returns on an object without usable
    [choices]. *)
Lemma sync_response_falsy_choices headers data r (m : gmap string json) :
  http_post rt (Request API_URL headers data false) = Returned r ->
  raise_for_status r = Returned tt ->
  json_loads rt (text r) = Returned (JObj m) ->
  match m !! "choices" with
  | Some v => truthy v = false
  | None => True
  end ->
  _sync_response rt headers data
  = Returned {[ "content" := JStr "";
                "citations" := match m !! "citations" with
                               | Some v => v
                               | None => JArr []
                               end ]}.
Proof.
  intros Hpost Hst Hjson Hch.
  unfold _sync_response, bind. rewrite Hpost, Hst, Hjson. simpl.
  destruct (m !! "choices") as [v|] eqn:Hm.
  - rewrite bool_decide_eq_true_2 by eauto. now rewrite Hch.
  - rewrite bool_decide_eq_false_2; [reflexivity|].
    intros [x Hx]. discriminate.
Qed.

(** C9 (as amended).  When the response has a success status and its
    body parses as a JSON object whose [choices] is absent or is the
    empty array, the non-streaming call returns a result whose content
    is the empty string; it does not raise. *)
Theorem sync_response_no_choices headers data r (m : gmap string json) :
  http_post rt (Request API_URL headers data false) = Returned r ->
  raise_for_status r = Returned tt ->
  json_loads rt (text r) = Returned (JObj m) ->
  m !! "choices" = None \/ m !! "choices" = Some (JArr []) ->
  exists result,
    _sync_response rt headers data = Returned result
    /\ result !! "content" = Some (JStr "").
Proof.
  intros Hpost Hst Hjson Hch.
  eexists. split.
  - apply (sync_response_falsy_choices headers data r m); try assumption.
    destruct Hch as [-> | ->]; [exact I | reflexivity].
  - apply lookup_insert_eq.
Qed.

(** The result of [_sync_response] always has a [content] entry, so the
    default of [result.get("content", text)] in [summarize] is never
    used. *)
Lemma sync_response_has_content headers data result :
  _sync_response rt headers data = Returned result ->
  is_Some (result !! "content").
Proof.
  unfold _sync_response, bind.
  repeat case_match; intros; simplify_eq; rewrite lookup_insert_eq; eauto.
Qed.

Lemma summarize_content api_key text model result v :
  _sync_response rt (make_headers api_key)
    (Payload model (summarize_messages text) false) = Returned result ->
  result !! "content" = Some v ->
  summarize rt api_key text model = Returned v.
Proof.
  intros Hsync Hv. unfold summarize, bind. now rewrite Hsync, Hv.
Qed.

End SyncFacts.

Lemma sync_response_no_choices_witness :
  let rt := Fixture.world (Returned (Fixture.ok_body "{}")) in
  let r := Fixture.ok_body "{}" in
  let data := Payload "sonar-pro" [Message "user" "hello"] false in
  PerplexityAPI.raise_for_status r = Returned tt
  /\ json_loads rt (text r) = Returned (JObj ∅)
  /\ exists result,
       PerplexityAPI._sync_response rt (PerplexityAPI.make_headers "pplx-key") data
       = Returned result
       /\ result !! "content" = Some (JStr "").
Proof.
  intros rt r data.
  split; [reflexivity|]. split; [reflexivity|].
  apply (sync_response_no_choices rt (PerplexityAPI.make_headers "pplx-key")
           data r ∅); try reflexivity.
  left. reflexivity.
Defined.

(** C9 (as stated) fails: the body [[]] has a success status, parses as
    JSON and holds no choices, yet the call does not return an empty
    content: the final [result.get("citations", [])] raises
    [AttributeError] on a list. *)
Lemma non_object_body_raises :
  let rt := Fixture.world (Returned (Fixture.ok_body "[]")) in
  let call :=
    PerplexityAPI._sync_response rt (PerplexityAPI.make_headers "pplx-key")
      (Payload "sonar-pro" [Message "user" "hello"] false) in
  PerplexityAPI.raise_for_status (Fixture.ok_body "[]") = Returned tt
  /\ json_loads rt (text (Fixture.ok_body "[]")) = Returned (JArr [])
  /\ no_choices_as_stated (JArr []) = true
  /\ call = Raised AttributeError
  /\ ~ (exists result,
          call = Returned result /\ result !! "content" = Some (JStr "")).
Proof.
  intros rt call.
  assert (Hcall : call = Raised AttributeError) by reflexivity.
  repeat split; try reflexivity.
  rewrite Hcall. intros (result & Hres & _). discriminate.
Qed.

(** ** The context manager *)

Section ContextFacts.

Variable rt : runtime.
Import PerplexityCLI.

Lemma add_messages_back (l : list message) (s : Session.t) :
  fold_left (fun s msg => Session.add_message (role msg) (content msg) s) l s
  = Session.Make (Session.messages s ++ l)%list (Session.current_file s)
      (Session.created_at s) (Session.model s).
Proof.
  revert s. induction l as [|[r c] l IH]; intros s; simpl.
  - rewrite app_nil_r. now destruct s.
  - rewrite IH. unfold Session.add_message. simpl.
    now rewrite <- app_assoc.
Qed.

Lemma slices_partition {A} (n : nat) (l : list A) :
  (slice_until_last n l ++ slice_last n l)%list = l.
Proof. apply firstn_skipn. Qed.

Lemma slice_last_length {A} (n : nat) (l : list A) :
  (n <= length l)%nat -> length (slice_last n l) = n.
Proof. intros H. unfold slice_last. rewrite length_skipn. lia. Qed.

(** Over budget and longer than the recent window: the summarization
    call is made, and decides. *)
Lemma summarize_if_needed_triggered self :
  let history := Session.messages (session self) in
  (4 < length history)%nat ->
  Config.input_token_limit (config self) < get_messages_token_count rt history ->
  summarize_if_needed rt self
  = match call_summarize rt self (transcript (slice_until_last 4 history)) with
    | Returned summary =>
        Returned
          (print "[dim]Context summarized successfully.[/dim]"
             (set_session (rewritten rt self summary)
                (print "[dim]Summarizing conversation to manage context...[/dim]"
                   self)))
    | Raised e =>
        if is_Exception e
        then Returned
               (print ("[yellow]Warning: Could not summarize: "
                       ++ exn_str rt e ++ "[/yellow]")
                  (print "[dim]Summarizing conversation to manage context...[/dim]"
                     self))
        else Raised e
    end.
Proof.
  intros history Hlen Hover. unfold summarize_if_needed, Session.get_messages.
  fold history.
  rewrite (proj2 (Z.ltb_lt _ _) Hover), (proj2 (Nat.ltb_lt _ _) Hlen). simpl.
  change (call_summarize rt (print _ self)) with (call_summarize rt self).
  destruct (call_summarize rt self _) as [summary|e]; [|reflexivity].
  do 2 f_equal. rewrite add_messages_back. reflexivity.
Qed.

(** C2.  On a history of more than 4 messages whose token count exceeds
    the budget, when the summarization call returns the text [S], the
    history becomes one [system] message with content
    ["Previous conversation summary: "] followed by [S], then the last
    4 messages of the old history, unchanged and in order; a history of
    6 messages becomes one of 5. *)
Theorem compress_keeps_last_four self S :
  let history := Session.messages (session self) in
  (4 < length history)%nat ->
  Config.input_token_limit (config self) < get_messages_token_count rt history ->
  call_summarize rt self (transcript (slice_until_last 4 history))
    = Returned (JStr S) ->
  exists self',
    summarize_if_needed rt self = Returned self'
    /\ Session.messages (session self')
       = Message "system" ("Previous conversation summary: " ++ S)
           :: slice_last 4 history
    /\ length (slice_last 4 history) = 4%nat
    /\ (exists stale, history = (stale ++ slice_last 4 history)%list)
    /\ (length history = 6%nat ->
        length (Session.messages (session self')) = 5%nat).
Proof.
  intros history Hlen Hover Hcall.
  rewrite (summarize_if_needed_triggered self Hlen Hover).
  fold history. rewrite Hcall.
  assert (Hfour : length (slice_last 4 history) = 4%nat)
    by (apply slice_last_length; lia).
  eexists. split; [reflexivity|]. simpl. fold history.
  split; [reflexivity|]. split; [exact Hfour|].
  split.
  - exists (slice_until_last 4 history). symmetry. apply slices_partition.
  - intros _. now rewrite Hfour.
Qed.

(** C3.  When the summarization call raises an exception, the session
    is left exactly as it was, the call returns normally, and the
    failure is printed as a warning. *)
Theorem failed_summary_leaves_history self e :
  let history := Session.messages (session self) in
  (4 < length history)%nat ->
  Config.input_token_limit (config self) < get_messages_token_count rt history ->
  call_summarize rt self (transcript (slice_until_last 4 history)) = Raised e ->
  is_Exception e = true ->
  exists self',
    summarize_if_needed rt self = Returned self'
    /\ session self' = session self
    /\ config self' = config self
    /\ api self' = api self
    /\ console self'
       = (console self
          ++ ["[dim]Summarizing conversation to manage context...[/dim]";
              ("[yellow]Warning: Could not summarize: "
                 ++ exn_str rt e ++ "[/yellow]")%string])%list.
Proof.
  intros history Hlen Hover Hcall Hexc.
  rewrite (summarize_if_needed_triggered self Hlen Hover).
  fold history. rewrite Hcall, Hexc.
  eexists. split; [reflexivity|]. simpl.
  repeat split. now rewrite <- app_assoc.
Qed.

(** C4.  A history of at most 4 messages, and a history whose token
    count does not exceed the budget (being equal to it included), is
    left completely unchanged: nothing is printed, no call is made. *)
Theorem short_or_within_budget_untouched self :
  let history := Session.messages (session self) in
  (length history <= 4)%nat
  \/ get_messages_token_count rt history <= Config.input_token_limit (config self) ->
  summarize_if_needed rt self = Returned self.
Proof.
  intros history H. unfold summarize_if_needed, Session.get_messages.
  fold history.
  destruct H as [Hshort | Hfits].
  - rewrite (proj2 (Nat.ltb_ge _ _) Hshort). now rewrite andb_false_r.
  - now rewrite (proj2 (Z.ltb_ge _ _) Hfits).
Qed.

(** C10.  When the summarization request succeeds with an empty
    content, the rewrite still takes place: the history becomes one
    [system] message whose content is exactly
    ["Previous conversation summary: "], then the last 4 messages. *)
Theorem empty_summary_still_rewrites self api_key result :
  let history := Session.messages (session self) in
  (4 < length history)%nat ->
  Config.input_token_limit (config self) < get_messages_token_count rt history ->
  api self = Some api_key ->
  PerplexityAPI._sync_response rt (PerplexityAPI.make_headers api_key)
    (Payload (Config.model (config self))
       (PerplexityAPI.summarize_messages
          (transcript (slice_until_last 4 history))) false)
    = Returned result ->
  result !! "content" = Some (JStr "") ->
  exists self',
    summarize_if_needed rt self = Returned self'
    /\ Session.messages (session self')
       = Message "system" "Previous conversation summary: "
           :: slice_last 4 history
    /\ length (slice_last 4 history) = 4%nat
    /\ (exists stale, history = (stale ++ slice_last 4 history)%list).
Proof.
  intros history Hlen Hover Hapi Hsync Hempty.
  rewrite (summarize_if_needed_triggered self Hlen Hover).
  fold history. unfold call_summarize. rewrite Hapi.
  rewrite (summarize_content rt _ _ _ _ _ Hsync Hempty).
  eexists. split; [reflexivity|]. simpl. fold history.
  split; [reflexivity|].
  split; [apply slice_last_length; lia|].
  exists (slice_until_last 4 history). symmetry. apply slices_partition.
Qed.

End ContextFacts.

Lemma compress_keeps_last_four_witness :
  let rt := Fixture.world
              (Returned (Fixture.ok_body
                           (Fixture.message_text "They greeted each other."))) in
  let self := Fixture.app_with 10 Fixture.six_messages in
  let history := Session.messages (PerplexityCLI.session self) in
  (4 < length history)%nat
  /\ 10 < get_messages_token_count rt history
  /\ exists self',
       PerplexityCLI.summarize_if_needed rt self = Returned self'
       /\ Session.messages (PerplexityCLI.session self')
          = Message "system"
              "Previous conversation summary: They greeted each other."
              :: slice_last 4 history
       /\ length (Session.messages (PerplexityCLI.session self')) = 5%nat.
Proof.
  intros rt self history.
  assert (Hlen : (4 < length history)%nat) by (vm_compute; lia).
  assert (Hover : 10 < get_messages_token_count rt history) by reflexivity.
  split; [exact Hlen|]. split; [exact Hover|].
  destruct (compress_keeps_last_four rt self "They greeted each other."
              Hlen Hover eq_refl) as (self' & Hrun & Hmsgs & _ & _ & Hfive).
  exists self'. split; [exact Hrun|]. split; [exact Hmsgs|].
  apply Hfive. reflexivity.
Defined.

Lemma failed_summary_leaves_history_witness :
  let rt := Fixture.offline in
  let self := Fixture.app_with 10 Fixture.six_messages in
  let history := Session.messages (PerplexityCLI.session self) in
  (4 < length history)%nat
  /\ 10 < get_messages_token_count rt history
  /\ exists self',
       PerplexityCLI.summarize_if_needed rt self = Returned self'
       /\ PerplexityCLI.session self' = PerplexityCLI.session self
       /\ PerplexityCLI.console self'
          = ["[dim]Summarizing conversation to manage context...[/dim]";
             "[yellow]Warning: Could not summarize: connection refused[/yellow]"].
Proof.
  intros rt self history.
  assert (Hlen : (4 < length history)%nat) by (vm_compute; lia).
  assert (Hover : 10 < get_messages_token_count rt history) by reflexivity.
  split; [exact Hlen|]. split; [exact Hover|].
  destruct (failed_summary_leaves_history rt self
              (RequestException "connection refused")
              Hlen Hover eq_refl eq_refl)
    as (self' & Hrun & Hsession & _ & _ & Hconsole).
  exists self'. split; [exact Hrun|]. split; [exact Hsession|].
  exact Hconsole.
Defined.

Lemma short_or_within_budget_untouched_witness :
  let rt := Fixture.offline in
  let at_budget := Fixture.app_with 18 Fixture.six_messages in
  let short := Fixture.app_with 0 (firstn 4 Fixture.six_messages) in
  get_messages_token_count rt Fixture.six_messages = 18
  /\ PerplexityCLI.summarize_if_needed rt at_budget = Returned at_budget
  /\ PerplexityCLI.summarize_if_needed rt short = Returned short.
Proof.
  intros rt at_budget short.
  split; [reflexivity|]. split.
  - apply (short_or_within_budget_untouched rt at_budget).
    right. vm_compute. discriminate.
  - apply (short_or_within_budget_untouched rt short).
    left. vm_compute. lia.
Defined.

Lemma empty_summary_still_rewrites_witness :
  let rt := Fixture.world (Returned (Fixture.ok_body "{}")) in
  let self := Fixture.app_with 10 Fixture.six_messages in
  let history := Session.messages (PerplexityCLI.session self) in
  (4 < length history)%nat
  /\ 10 < get_messages_token_count rt history
  /\ exists self',
       PerplexityCLI.summarize_if_needed rt self = Returned self'
       /\ Session.messages (PerplexityCLI.session self')
          = Message "system" "Previous conversation summary: "
              :: slice_last 4 history.
Proof.
  intros rt self history.
  assert (Hlen : (4 < length history)%nat) by (vm_compute; lia).
  assert (Hover : 10 < get_messages_token_count rt history) by reflexivity.
  split; [exact Hlen|]. split; [exact Hover|].
  destruct (empty_summary_still_rewrites rt self "pplx-key"
              {[ "content" := JStr ""; "citations" := JArr [] ]}
              Hlen Hover eq_refl eq_refl eq_refl)
    as (self' & Hrun & Hmsgs & _).
  exists self'. split; [exact Hrun | exact Hmsgs].
Defined.

(** * Further properties of the code *)

(** ** The stream decoder: failures and edge cases *)

Section StreamMore.

Variable rt : runtime.
Import PerplexityAPI.

#[local] Arguments slice_from : simpl never.
#[local] Arguments String.prefix : simpl never.
#[local] Arguments String.eqb : simpl never.

(** An error status ends [_stream_response] before the first line is
    read: nothing is yielded, whatever the body holds. *)
Theorem stream_error_status headers data r :
  http_post rt (Request API_URL headers data true) = Returned r ->
  400 <= status_code r < 600 ->
  _stream_response rt headers data = ([], Raised (HTTPError (status_code r))).
Proof.
  intros Hpost [Hlo Hhi].
  unfold _stream_response, consume_stream, raise_for_status.
  rewrite Hpost.
  rewrite (proj2 (Z.leb_le _ _) Hlo), (proj2 (Z.ltb_lt _ _) Hhi).
  reflexivity.
Qed.

(** Whatever the response, every fragment the decoder yields is a
    non-empty text, and when the decoder returns, its result has exactly
    the entries [citations] and [content], the latter being the
    concatenation of the fragments. *)
Theorem stream_result_shape r fragments final :
  consume_stream rt r = (fragments, final) ->
  Forall (fun y => y <> "") fragments
  /\ forall result,
       final = Returned result ->
       result !! "content" = Some (JStr (joined fragments))
       /\ dom result = ({[ "citations"; "content" ]} : gset string).
Proof.
  unfold consume_stream.
  destruct (raise_for_status r).
  2:{ intros [= <- <-]. split; [constructor | discriminate]. }
  destruct (stream_lines rt (iter_lines r) (iter_lines_error r) (JArr []) "")
    as [ys fin] eqn:Hrun.
  intros [= <- <-].
  destruct (stream_lines_yield rt _ _ _ _ _ _ Hrun) as [Hne Hcat].
  split; [exact Hne|].
  intros result Hres. destruct fin as [[c f]|e]; [|discriminate].
  simpl in Hres. injection Hres as <-.
  rewrite (Hcat c f eq_refl), append_nil_l. split.
  - apply result_content.
  - rewrite dom_insert_L, dom_singleton_L. reflexivity.
Qed.

(** A non-empty line that is not UTF-8 raises [UnicodeDecodeError]. *)
Lemma undecodable_line_raises line c f :
  line <> [] ->
  utf8_decode rt line = None ->
  stream_line rt line c f = Throw UnicodeDecodeError.
Proof.
  intros Hne Hdec. unfold stream_line.
  destruct line; [congruence|]. now rewrite Hdec.
Qed.

(** An event line whose payload parses as [null], a boolean or a number
    is not skipped like a payload that fails to parse: the membership
    test on it raises [TypeError], which the [except] clause does not
    catch. *)
Theorem scalar_payload_raises line chunk c f :
  event_of rt line = Some chunk ->
  scalar chunk = true ->
  stream_line rt line c f = Throw TypeError.
Proof.
  intros Hev Hsc. rewrite (stream_line_event rt line chunk c f Hev).
  destruct chunk; try discriminate; reflexivity.
Qed.

(** A failure of [json.loads] other than [JSONDecodeError], such as the
    [RecursionError] on deeply nested text, is not caught by the
    [except] clause: the line raises it, and it is not noise. *)
Theorem parser_failure_aborts line json_str e c f :
  event_payload rt line = Some json_str ->
  json_str <> "[DONE]" ->
  json_loads rt json_str = Raised e ->
  e <> JSONDecodeError ->
  stream_line rt line c f = Throw e /\ is_noise rt line = false.
Proof.
  intros Hev Hdone Hloads He.
  apply String.eqb_neq in Hdone.
  unfold is_noise, is_heartbeat, is_malformed, stream_line.
  rewrite Hev. unfold event_payload in Hev.
  destruct line as [|b line]; [discriminate|].
  destruct (utf8_decode rt (b :: line)) as [line_str|]; [|discriminate].
  destruct (String.prefix "data: " line_str); [|discriminate].
  injection Hev as Hev. rewrite Hev, Hdone, Hloads. simpl.
  destruct e; try reflexivity; split; congruence.
Qed.

(** When a line raises, the stream ends with that exception, and the
    fragments of the lines before it have been yielded all the same:
    they are those of the stream cut before that line. *)
Theorem stream_abort_keeps_fragments r pre line post e :
  raise_for_status r = Returned tt ->
  iter_lines r = (pre ++ line :: post)%list ->
  Forall (goes_on rt) pre ->
  (forall c f, stream_line rt line c f = Throw e) ->
  consume_stream rt r
  = ((consume_stream rt (Response (status_code r) (text r) pre None)).1,
     Raised e).
Proof.
  intros Hst Hlines Hgo Hthrow.
  destruct (stream_lines_app rt pre (JArr []) "" Hgo) as (c1 & f1 & ys & Happ).
  pose proof (Happ [] None) as Hcut. rewrite app_nil_r in Hcut. simpl in Hcut.
  unfold consume_stream.
  replace (raise_for_status (Response (status_code r) (text r) pre None))
    with (raise_for_status r) by reflexivity.
  rewrite Hst, Hlines. simpl. rewrite Hcut, Happ. simpl.
  now rewrite Hthrow.
Qed.

(** When the transport fails after delivering well-formed lines that hold
    no sentinel, the decoder raises that failure when the lines are
    exhausted; the fragments of the lines delivered have been yielded. *)
Theorem transport_failure_after_lines r e :
  raise_for_status r = Returned tt ->
  Forall (goes_on rt) (iter_lines r) ->
  iter_lines_error r = Some e ->
  consume_stream rt r
  = ((consume_stream rt
        (Response (status_code r) (text r) (iter_lines r) None)).1,
     Raised e).
Proof.
  intros Hst Hgo Herr.
  destruct (stream_lines_app rt (iter_lines r) (JArr []) "" Hgo)
    as (c1 & f1 & ys & Happ).
  pose proof (Happ [] None) as Hclean.
  pose proof (Happ [] (Some e)) as Hfail.
  rewrite app_nil_r in Hclean, Hfail. simpl in Hclean, Hfail.
  unfold consume_stream.
  replace (raise_for_status
             (Response (status_code r) (text r) (iter_lines r) None))
    with (raise_for_status r) by reflexivity.
  rewrite Hst, Herr. simpl. now rewrite Hclean, Hfail.
Qed.

(** A well-formed stream in which no line carries a [citations] field
    returns the empty list of citations. *)
Theorem no_citations_gives_empty_list r :
  raise_for_status r = Returned tt ->
  Forall (quiet rt) (iter_lines r) ->
  iter_lines_error r = None
    \/ Exists (fun line => is_sentinel rt line = true) (iter_lines r) ->
  exists fragments result,
    consume_stream rt r = (fragments, Returned result)
    /\ result !! "citations" = Some (JArr []).
Proof.
  intros Hst Hq Hend. unfold consume_stream. rewrite Hst.
  destruct (stream_lines_returns rt (iter_lines r) (iter_lines_error r)
              (JArr []) "") as (ys & [c f] & Hrun); [|assumption|].
  { eapply Forall_impl; [exact Hq|]. now intros line [Hwf _]. }
  rewrite Hrun.
  assert (c = JArr []) as -> by (eapply stream_lines_quiet; eassumption).
  eexists _, _. split; [reflexivity|]. apply result_citations.
Qed.

(** The [content] of the first choice's [delta] decides what a chunk
    does: a falsy value of any type ([null], the empty text, [0], ...)
    is passed over, a non-empty text is yielded and appended, and any
    other value raises [TypeError] at [full_content += content]. *)
Theorem delta_content_decides (m ch d : gmap string json) rest v c f :
  m !! "choices" = Some (JArr (JObj ch :: rest)) ->
  ch !! "delta" = Some (JObj d) ->
  d !! "content" = Some v ->
  let citations := match m !! "citations" with Some x => x | None => c end in
  stream_chunk (JObj m) c f
  = if truthy v
    then match v with
         | JStr fragment => Returned (citations, f ++ fragment, [fragment])
         | _ => Raised TypeError
         end
    else Returned (citations, f, []).
Proof.
  intros Hch Hd Hv citations. subst citations.
  unfold stream_chunk, bind, contains, getitem, getitem0, get.
  rewrite Hch.
  rewrite (bool_decide_eq_true_2 (is_Some (Some (JArr (JObj ch :: rest)))))
    by eauto.
  destruct (m !! "citations") as [x|] eqn:Hc.
  - rewrite bool_decide_eq_true_2 by eauto. simpl. rewrite Hd, Hv.
    reflexivity.
  - rewrite bool_decide_eq_false_2 by (intros [? ?]; discriminate).
    simpl. rewrite Hd, Hv. reflexivity.
Qed.

End StreamMore.

Lemma stream_error_status_witness :
  let rt := Scenario.world (Returned Scenario.unavailable) in
  400 <= status_code Scenario.unavailable < 600
  /\ PerplexityAPI._stream_response rt (PerplexityAPI.make_headers "pplx-key")
       (Payload "sonar-pro" [Message "user" "hello"] true)
     = ([], Raised (HTTPError 503)).
Proof.
  intros rt.
  assert (Hst : 400 <= status_code Scenario.unavailable < 600)
    by (simpl; lia).
  split; [exact Hst|].
  exact (stream_error_status rt (PerplexityAPI.make_headers "pplx-key")
           (Payload "sonar-pro" [Message "user" "hello"] true)
           Scenario.unavailable eq_refl Hst).
Defined.

Lemma stream_result_shape_witness :
  let rt := Fixture.offline in
  PerplexityAPI.consume_stream rt Scenario.hello_stream
  = (["Hel"; "lo"],
     Returned {[ "citations" := JArr []; "content" := JStr "Hello" ]})
  /\ Forall (fun y => y <> "") ["Hel"; "lo"]
  /\ dom ({[ "citations" := JArr []; "content" := JStr "Hello" ]}
            : gmap string json)
     = ({[ "citations"; "content" ]} : gset string).
Proof.
  intros rt.
  assert (Hrun : PerplexityAPI.consume_stream rt Scenario.hello_stream
                 = (["Hel"; "lo"],
                    Returned {[ "citations" := JArr [];
                                "content" := JStr "Hello" ]}))
    by (vm_compute; reflexivity).
  destruct (stream_result_shape rt Scenario.hello_stream _ _ Hrun)
    as [Hne Hres].
  split; [exact Hrun|]. split; [exact Hne|].
  exact (proj2 (Hres _ eq_refl)).
Defined.

Lemma scalar_payload_raises_witness :
  let rt := Scenario.world (Returned Scenario.hello_stream) in
  let line := Fixture.line_of "data: null" in
  event_of rt line = Some JNull
  /\ PerplexityAPI.stream_line rt line (JArr []) "" = PerplexityAPI.Throw TypeError
  /\ PerplexityAPI.consume_stream rt
       (Fixture.ok_stream [Fixture.delta_line "Hel"; line; Fixture.done_line])
     = (["Hel"], Raised TypeError).
Proof.
  intros rt line.
  assert (Hev : event_of rt line = Some JNull) by (vm_compute; reflexivity).
  split; [exact Hev|]. split.
  - exact (scalar_payload_raises rt line JNull (JArr []) "" Hev eq_refl).
  - vm_compute. reflexivity.
Defined.

Lemma parser_failure_aborts_witness :
  let rt := Scenario.bounded in
  event_payload rt Scenario.deep_line = Some Scenario.deep_text
  /\ json_loads rt Scenario.deep_text = Raised RecursionError
  /\ PerplexityAPI.stream_line rt Scenario.deep_line (JArr []) "Hel"
     = PerplexityAPI.Throw RecursionError
  /\ is_noise rt Scenario.deep_line = false
  /\ PerplexityAPI.consume_stream rt
       (Fixture.ok_stream [Fixture.delta_line "Hel"; Scenario.deep_line;
                           Fixture.delta_line "lo"; Fixture.done_line])
     = (["Hel"], Raised RecursionError).
Proof.
  intros rt.
  assert (Hev : event_payload rt Scenario.deep_line = Some Scenario.deep_text)
    by (vm_compute; reflexivity).
  assert (Hloads : json_loads rt Scenario.deep_text = Raised RecursionError)
    by (vm_compute; reflexivity).
  assert (Hdone : Scenario.deep_text <> "[DONE]") by (vm_compute; discriminate).
  assert (He : RecursionError <> JSONDecodeError) by discriminate.
  destruct (parser_failure_aborts rt Scenario.deep_line Scenario.deep_text
              RecursionError (JArr []) "Hel" Hev Hdone Hloads He)
    as [Hthrow Hnoise].
  split; [exact Hev|]. split; [exact Hloads|]. split; [exact Hthrow|].
  split; [exact Hnoise|]. vm_compute. reflexivity.
Defined.

Lemma stream_abort_keeps_fragments_witness :
  let rt := Fixture.offline in
  let pre := [Fixture.delta_line "Hel"; Fixture.delta_line "lo"] in
  let r := Fixture.ok_stream (pre ++ [xff] :: [Fixture.done_line]) in
  Forall (goes_on rt) pre
  /\ (forall c f,
        PerplexityAPI.stream_line rt [xff] c f
        = PerplexityAPI.Throw UnicodeDecodeError)
  /\ PerplexityAPI.consume_stream rt r = (["Hel"; "lo"], Raised UnicodeDecodeError).
Proof.
  intros rt pre r.
  assert (Hgo : Forall (goes_on rt) pre)
    by (repeat constructor; vm_compute; reflexivity).
  assert (Hthrow : forall c f,
             PerplexityAPI.stream_line rt [xff] c f
             = PerplexityAPI.Throw UnicodeDecodeError)
    by (intros c f; apply undecodable_line_raises; [discriminate | reflexivity]).
  split; [exact Hgo|]. split; [exact Hthrow|].
  exact (stream_abort_keeps_fragments rt r pre [xff] [Fixture.done_line]
           UnicodeDecodeError eq_refl eq_refl Hgo Hthrow).
Defined.

Lemma transport_failure_after_lines_witness :
  let rt := Fixture.offline in
  Forall (goes_on rt) (iter_lines Scenario.interrupted)
  /\ PerplexityAPI.consume_stream rt Scenario.interrupted
     = (["Hel"; "lo"], Raised (RequestException "connection reset")).
Proof.
  intros rt.
  assert (Hgo : Forall (goes_on rt) (iter_lines Scenario.interrupted))
    by (repeat constructor; vm_compute; reflexivity).
  split; [exact Hgo|].
  exact (transport_failure_after_lines rt Scenario.interrupted
           (RequestException "connection reset") eq_refl Hgo eq_refl).
Defined.

Lemma no_citations_gives_empty_list_witness :
  let rt := Fixture.offline in
  Forall (quiet rt) (iter_lines Scenario.hello_stream)
  /\ exists fragments result,
       PerplexityAPI.consume_stream rt Scenario.hello_stream
       = (fragments, Returned result)
       /\ result !! "citations" = Some (JArr []).
Proof.
  intros rt.
  assert (Hq : Forall (quiet rt) (iter_lines Scenario.hello_stream))
    by (repeat constructor; vm_compute; reflexivity).
  split; [exact Hq|].
  apply (no_citations_gives_empty_list rt Scenario.hello_stream eq_refl Hq).
  now left.
Defined.

Lemma delta_content_decides_witness :
  PerplexityAPI.stream_chunk Scenario.null_delta_value (JArr []) "Hel"
  = Returned (JArr [], "Hel", [])
  /\ PerplexityAPI.stream_chunk (Fixture.delta_value "lo") (JArr []) "Hel"
     = Returned (JArr [], "Hello", ["lo"]).
Proof.
  split.
  - exact (delta_content_decides
             {[ "choices" :=
                  JArr [JObj {[ "delta" := JObj {[ "content" := JNull ]} ]}] ]}
             {[ "delta" := JObj {[ "content" := JNull ]} ]}
             {[ "content" := JNull ]} [] JNull (JArr []) "Hel"
             eq_refl eq_refl eq_refl).
  - exact (delta_content_decides
             {[ "choices" :=
                  JArr [JObj {[ "delta" := JObj {[ "content" := JStr "lo" ]} ]}] ]}
             {[ "delta" := JObj {[ "content" := JStr "lo" ]} ]}
             {[ "content" := JStr "lo" ]} [] (JStr "lo") (JArr []) "Hel"
             eq_refl eq_refl eq_refl).
Defined.

(** ** The non-streaming call: failures and extraction *)

Section SyncMore.

Variable rt : runtime.
Import PerplexityAPI.

(** An error status makes [_sync_response] raise before the body is
    parsed. *)
Theorem sync_error_status headers data r :
  http_post rt (Request API_URL headers data false) = Returned r ->
  400 <= status_code r < 600 ->
  _sync_response rt headers data = Raised (HTTPError (status_code r)).
Proof.
  intros Hpost [Hlo Hhi].
  unfold _sync_response, bind, raise_for_status. rewrite Hpost.
  rewrite (proj2 (Z.leb_le _ _) Hlo), (proj2 (Z.ltb_lt _ _) Hhi).
  reflexivity.
Qed.

(** On an object whose [choices] is a non-empty array, the content is
    that of the message of the first choice, whatever it is and whatever
    the other choices hold; the citations are those of the body, or the
    empty list. *)
Theorem sync_first_choice headers data r (m ch msg : gmap string json) rest v :
  http_post rt (Request API_URL headers data false) = Returned r ->
  raise_for_status r = Returned tt ->
  json_loads rt (text r) = Returned (JObj m) ->
  m !! "choices" = Some (JArr (JObj ch :: rest)) ->
  ch !! "message" = Some (JObj msg) ->
  msg !! "content" = Some v ->
  _sync_response rt headers data
  = Returned {[ "content" := v;
                "citations" := match m !! "citations" with
                               | Some c => c
                               | None => JArr []
                               end ]}.
Proof.
  intros Hpost Hst Hjson Hch Hmsg Hv.
  unfold _sync_response, bind, contains, getitem, getitem0, get.
  rewrite Hpost, Hst, Hjson, Hch.
  rewrite bool_decide_eq_true_2 by eauto. simpl.
  now rewrite Hmsg, Hv.
Qed.

(** A body that parses as anything but an object makes the call raise:
    on the membership test, on the subscript, or on the final
    [result.get]. *)
Theorem sync_non_object_raises headers data r v :
  http_post rt (Request API_URL headers data false) = Returned r ->
  raise_for_status r = Returned tt ->
  json_loads rt (text r) = Returned v ->
  (forall m, v <> JObj m) ->
  exists e,
    _sync_response rt headers data = Raised e
    /\ (e = TypeError \/ e = AttributeError).
Proof.
  intros Hpost Hst Hjson Hno.
  unfold _sync_response, bind, contains, getitem, getitem0, get.
  rewrite Hpost, Hst, Hjson.
  destruct v as [| | |s|l|m]; simpl; eauto.
  - destruct (is_substring "choices" s); simpl; eauto.
  - destruct (existsb (is_str "choices") l); simpl; eauto.
  - now destruct (Hno m).
Qed.

(** What [summarize] returns is always the [content] entry of the result
    of the call: the fallback to the text to summarize is never taken. *)
Theorem summarize_never_defaults api_key text model v :
  summarize rt api_key text model = Returned v ->
  exists result,
    _sync_response rt (make_headers api_key)
      (Payload model (summarize_messages text) false) = Returned result
    /\ result !! "content" = Some v.
Proof.
  unfold summarize, bind.
  destruct (_sync_response rt (make_headers api_key)
              (Payload model (summarize_messages text) false))
    as [result|e] eqn:Hsync; [|discriminate].
  destruct (sync_response_has_content rt _ _ _ Hsync) as [c Hc].
  rewrite Hc. intros [= <-]. eauto.
Qed.

End SyncMore.

Lemma sync_error_status_witness :
  let rt := Scenario.world (Returned Scenario.unavailable) in
  400 <= status_code Scenario.unavailable < 600
  /\ PerplexityAPI._sync_response rt (PerplexityAPI.make_headers "pplx-key")
       (Payload "sonar-pro" [Message "user" "hello"] false)
     = Raised (HTTPError 503).
Proof.
  intros rt.
  assert (Hst : 400 <= status_code Scenario.unavailable < 600) by (simpl; lia).
  split; [exact Hst|].
  exact (sync_error_status rt (PerplexityAPI.make_headers "pplx-key")
           (Payload "sonar-pro" [Message "user" "hello"] false)
           Scenario.unavailable eq_refl Hst).
Defined.

Lemma sync_first_choice_witness :
  let rt := Scenario.world (Returned (Fixture.ok_body Scenario.answer_text)) in
  json_loads rt Scenario.answer_text = Returned Scenario.answer_value
  /\ PerplexityAPI._sync_response rt (PerplexityAPI.make_headers "pplx-key")
       (Payload "sonar-pro" [Message "user" "capital of France?"] false)
     = Returned {[ "content" := JStr "Paris.";
                   "citations" := JArr [JStr "https://a.example"] ]}.
Proof.
  intros rt.
  assert (Hjson : json_loads rt Scenario.answer_text
                  = Returned Scenario.answer_value) by (vm_compute; reflexivity).
  split; [exact Hjson|].
  exact (sync_first_choice rt (PerplexityAPI.make_headers "pplx-key")
           (Payload "sonar-pro" [Message "user" "capital of France?"] false)
           (Fixture.ok_body Scenario.answer_text)
           {[ "citations" := JArr [JStr "https://a.example"];
              "choices" :=
                JArr [JObj {[ "message" := JObj {[ "content" := JStr "Paris." ]} ]};
                      JObj {[ "message" := JObj {[ "content" := JStr "Lyon." ]} ]}] ]}
           {[ "message" := JObj {[ "content" := JStr "Paris." ]} ]}
           {[ "content" := JStr "Paris." ]}
           [JObj {[ "message" := JObj {[ "content" := JStr "Lyon." ]} ]}]
           (JStr "Paris.")
           eq_refl eq_refl Hjson eq_refl eq_refl eq_refl).
Defined.

Lemma sync_non_object_raises_witness :
  let rt := Scenario.world (Returned (Fixture.ok_body "null")) in
  json_loads rt "null" = Returned JNull
  /\ exists e,
       PerplexityAPI._sync_response rt (PerplexityAPI.make_headers "pplx-key")
         (Payload "sonar-pro" [Message "user" "hello"] false) = Raised e
       /\ (e = TypeError \/ e = AttributeError).
Proof.
  intros rt.
  assert (Hjson : json_loads rt "null" = Returned JNull) by reflexivity.
  split; [exact Hjson|].
  apply (sync_non_object_raises rt (PerplexityAPI.make_headers "pplx-key")
           (Payload "sonar-pro" [Message "user" "hello"] false)
           (Fixture.ok_body "null") JNull eq_refl eq_refl Hjson).
  discriminate.
Defined.

Lemma summarize_never_defaults_witness :
  let rt := Scenario.world (Returned (Fixture.ok_body "{}")) in
  PerplexityAPI.summarize rt "pplx-key" "user: hello" "sonar-pro"
    = Returned (JStr "")
  /\ exists result,
       PerplexityAPI._sync_response rt (PerplexityAPI.make_headers "pplx-key")
         (Payload "sonar-pro" (PerplexityAPI.summarize_messages "user: hello")
            false) = Returned result
       /\ result !! "content" = Some (JStr "").
Proof.
  intros rt.
  assert (Hsum : PerplexityAPI.summarize rt "pplx-key" "user: hello" "sonar-pro"
                 = Returned (JStr "")) by reflexivity.
  split; [exact Hsum|].
  exact (summarize_never_defaults rt "pplx-key" "user: hello" "sonar-pro"
           (JStr "") Hsum).
Defined.

(** ** The context manager: side effects and repeated compression *)

Section ContextMore.

Variable rt : runtime.
Import PerplexityCLI.

Lemma summarize_if_needed_idle self :
  let history := Session.messages (session self) in
  (length history <= 4)%nat
  \/ get_messages_token_count rt history <= Config.input_token_limit (config self) ->
  summarize_if_needed rt self = Returned self.
Proof.
  intros history H. unfold summarize_if_needed, Session.get_messages.
  fold history. destruct H as [Hshort | Hfits].
  - rewrite (proj2 (Nat.ltb_ge _ _) Hshort). now rewrite andb_false_r.
  - now rewrite (proj2 (Z.ltb_ge _ _) Hfits).
Qed.

Lemma count_tokens_nonneg (text : string) : 0 <= count_tokens rt text.
Proof.
  unfold count_tokens, fallback_estimate.
  destruct (TIKTOKEN_AVAILABLE rt); [destruct (tiktoken_encode rt text)|].
  - lia.
  - apply Z.div_pos; lia.
  - apply Z.div_pos; lia.
Qed.

(** The token count is additive over concatenation and never negative:
    appending messages to a history cannot lower its count. *)
Theorem token_count_additive (l1 l2 : list message) :
  get_messages_token_count rt (l1 ++ l2)%list
  = get_messages_token_count rt l1 + get_messages_token_count rt l2
  /\ 0 <= get_messages_token_count rt l2
  /\ get_messages_token_count rt l1 <= get_messages_token_count rt (l1 ++ l2)%list.
Proof.
  assert (Hnn : forall l, 0 <= get_messages_token_count rt l).
  { intros l. rewrite get_messages_token_count_sum.
    induction l as [|m l IH]; simpl; [lia|].
    pose proof (count_tokens_nonneg (content m)). lia. }
  assert (Hadd : get_messages_token_count rt (l1 ++ l2)%list
                 = get_messages_token_count rt l1
                   + get_messages_token_count rt l2).
  { rewrite !get_messages_token_count_sum, map_app.
    induction l1 as [|m l1 IH]; simpl; [lia|]. rewrite IH. lia. }
  split; [exact Hadd|]. split; [apply Hnn|].
  rewrite Hadd. pose proof (Hnn l2). lia.
Qed.

(** An exception that does not derive from [Exception], such as
    [KeyboardInterrupt], is not turned into a warning: it escapes
    [summarize_if_needed]. *)
Theorem interrupt_escapes self e :
  let history := Session.messages (session self) in
  (4 < length history)%nat ->
  Config.input_token_limit (config self) < get_messages_token_count rt history ->
  call_summarize rt self (transcript (slice_until_last 4 history)) = Raised e ->
  is_Exception e = false ->
  summarize_if_needed rt self = Raised e.
Proof.
  intros history Hlen Hover Hcall Hexc.
  rewrite (summarize_if_needed_triggered rt self Hlen Hover).
  fold history. now rewrite Hcall, Hexc.
Qed.

(** A successful rewrite, whatever value the summary is, resets the
    creation time of the session to the current time, keeps its file
    name and model, leaves the configuration and the client alone, and
    prints two lines. *)
Theorem rewrite_side_effects self summary :
  let history := Session.messages (session self) in
  (4 < length history)%nat ->
  Config.input_token_limit (config self) < get_messages_token_count rt history ->
  call_summarize rt self (transcript (slice_until_last 4 history))
    = Returned summary ->
  exists self',
    summarize_if_needed rt self = Returned self'
    /\ Session.messages (session self')
       = Message "system"
           ("Previous conversation summary: " ++ format_value rt summary)
           :: slice_last 4 history
    /\ Session.created_at (session self') = now_isoformat rt
    /\ Session.current_file (session self') = Session.current_file (session self)
    /\ Session.model (session self') = Session.model (session self)
    /\ config self' = config self
    /\ api self' = api self
    /\ console self'
       = (console self
          ++ ["[dim]Summarizing conversation to manage context...[/dim]";
              "[dim]Context summarized successfully.[/dim]"])%list.
Proof.
  intros history Hlen Hover Hcall.
  rewrite (summarize_if_needed_triggered rt self Hlen Hover).
  fold history. rewrite Hcall.
  eexists. split; [reflexivity|]. simpl.
  repeat split. now rewrite <- app_assoc.
Qed.

(** After a rewrite the history has 5 messages.  A second call leaves it
    alone when its token count is within the budget; otherwise it would
    summarize exactly one message, the previous summary, and keep the
    same 4 recent messages. *)
Theorem second_compression self self' S :
  let history := Session.messages (session self) in
  (4 < length history)%nat ->
  Config.input_token_limit (config self) < get_messages_token_count rt history ->
  call_summarize rt self (transcript (slice_until_last 4 history))
    = Returned (JStr S) ->
  summarize_if_needed rt self = Returned self' ->
  let history' := Session.messages (session self') in
  length history' = 5%nat
  /\ slice_until_last 4 history'
     = [Message "system" ("Previous conversation summary: " ++ S)]
  /\ slice_last 4 history' = slice_last 4 history
  /\ (get_messages_token_count rt history'
        <= Config.input_token_limit (config self') ->
      summarize_if_needed rt self' = Returned self').
Proof.
  intros history Hlen Hover Hcall Hrun history'.
  rewrite (summarize_if_needed_triggered rt self Hlen Hover) in Hrun.
  fold history in Hrun. rewrite Hcall in Hrun. injection Hrun as <-.
  assert (Hfour : length (slice_last 4 history) = 4%nat)
    by (apply slice_last_length; lia).
  subst history'. simpl. fold history.
  split; [now rewrite Hfour|]. split; [|split].
  - destruct (slice_last 4 history) as [|a [|b [|c [|d [|x l]]]]];
      try discriminate Hfour. reflexivity.
  - destruct (slice_last 4 history) as [|a [|b [|c [|d [|x l]]]]];
      try discriminate Hfour. reflexivity.
  - intros Hfits. apply summarize_if_needed_idle. right. exact Hfits.
Qed.

End ContextMore.

Lemma interrupt_escapes_witness :
  let rt := Fixture.world (Raised KeyboardInterrupt) in
  let self := Fixture.app_with 10 Fixture.six_messages in
  PerplexityCLI.summarize_if_needed rt self = Raised KeyboardInterrupt.
Proof.
  intros rt self.
  apply (interrupt_escapes rt self KeyboardInterrupt); try reflexivity.
  vm_compute. lia.
Defined.

Lemma rewrite_side_effects_witness :
  let rt := Fixture.world
              (Returned (Fixture.ok_body
                           (Fixture.message_text "They greeted each other."))) in
  let self := Fixture.app_with 10 Fixture.six_messages in
  exists self',
    PerplexityCLI.summarize_if_needed rt self = Returned self'
    /\ Session.created_at (PerplexityCLI.session self') = "2024-01-01T00:00:00"
    /\ Session.created_at (PerplexityCLI.session self) = "2023-12-31T23:59:59"
    /\ PerplexityCLI.console self'
       = ["[dim]Summarizing conversation to manage context...[/dim]";
          "[dim]Context summarized successfully.[/dim]"].
Proof.
  intros rt self.
  assert (Hlen : (4 < length (Session.messages (PerplexityCLI.session self)))%nat)
    by (vm_compute; lia).
  destruct (rewrite_side_effects rt self (JStr "They greeted each other.")
              Hlen eq_refl eq_refl)
    as (self' & Hrun & _ & Hcreated & _ & _ & _ & _ & Hconsole).
  exists self'. split; [exact Hrun|]. split; [exact Hcreated|].
  split; [reflexivity | exact Hconsole].
Defined.

Lemma second_compression_witness :
  let rt := Fixture.world
              (Returned (Fixture.ok_body
                           (Fixture.message_text "They greeted each other."))) in
  let self := Fixture.app_with 10 Fixture.six_messages in
  exists self',
    PerplexityCLI.summarize_if_needed rt self = Returned self'
    /\ length (Session.messages (PerplexityCLI.session self')) = 5%nat
    /\ slice_until_last 4 (Session.messages (PerplexityCLI.session self'))
       = [Message "system"
            "Previous conversation summary: They greeted each other."].
Proof.
  intros rt self.
  assert (Hlen : (4 < length (Session.messages (PerplexityCLI.session self)))%nat)
    by (vm_compute; lia).
  eexists. split; [reflexivity|].
  destruct (second_compression rt self _ "They greeted each other."
              Hlen eq_refl eq_refl eq_refl) as (Hfive & Hstale & _).
  split; [exact Hfive | exact Hstale].
Defined.

(** ** One turn of conversation ([PerplexityCLI.chat]) *)

Section ChatFacts.

Variable rt : runtime.
Import PerplexityCLI.

Lemma fold_left_append (chunks : list string) (acc : string) :
  fold_left String.append chunks acc = acc ++ joined chunks.
Proof.
  revert acc. induction chunks as [|x chunks IH]; intros acc; simpl.
  - now rewrite append_nil_r.
  - rewrite IH. apply append_assoc.
Qed.

Lemma frames_from_length (chunks : list string) (acc : string) :
  length (frames_from acc chunks) = length chunks.
Proof.
  revert acc. induction chunks as [|x chunks IH]; intros acc; simpl;
    [reflexivity | now rewrite IH].
Qed.

Lemma stream_response_content headers data fragments result :
  PerplexityAPI._stream_response rt headers data = (fragments, Returned result) ->
  result !! "content" = Some (JStr (joined fragments)).
Proof.
  unfold PerplexityAPI._stream_response, PerplexityAPI.consume_stream.
  destruct (http_post rt _) as [r|e]; [|discriminate].
  destruct (PerplexityAPI.raise_for_status r); [|discriminate].
  destruct (PerplexityAPI.stream_lines rt (iter_lines r) (iter_lines_error r)
              (JArr []) "") as [ys fin] eqn:Hrun.
  destruct fin as [[c f]|e]; [|discriminate].
  simpl. intros [= <- <-].
  destruct (stream_lines_yield rt _ _ _ _ _ _ Hrun) as [_ Hcat].
  rewrite (Hcat c f eq_refl), append_nil_l. apply result_content.
Qed.

(** When the stream of a turn ends normally, the history gains the user
    turn and then one assistant message whose content is the
    concatenation of the fragments, which is also the [content] of the
    decoder's result; the display has shown one frame per fragment. *)
Theorem chat_stores_exchange self self1 api_key user_input fragments result :
  summarize_if_needed rt self = Returned self1 ->
  api self1 = Some api_key ->
  PerplexityAPI._stream_response rt (PerplexityAPI.make_headers api_key)
    (Payload (Config.model (config self1)) (outbound self1 user_input) true)
    = (fragments, Returned result) ->
  exists self2,
    chat rt user_input self = (frames_from "" fragments, Returned self2)
    /\ Session.messages (session self2)
       = (Session.messages (session self1)
          ++ [Message "user" user_input;
              Message "assistant" (joined fragments)])%list
    /\ result !! "content" = Some (JStr (joined fragments))
    /\ length (frames_from "" fragments) = length fragments
    /\ console self2 = (console self1 ++ [""; ""])%list.
Proof.
  intros Hsum Hapi Hstream.
  unfold chat, call_chat. rewrite Hsum. simpl. rewrite Hapi.
  unfold PerplexityAPI.chat, PerplexityAPI.iterate, Session.get_messages.
  unfold outbound in Hstream. rewrite Hstream. simpl.
  eexists. split; [reflexivity|]. simpl.
  rewrite fold_left_append, append_nil_l, <- !app_assoc. simpl.
  split; [reflexivity|].
  split; [exact (stream_response_content _ _ _ _ Hstream)|].
  split; [apply frames_from_length | reflexivity].
Qed.

(** When the stream of a turn raises, the user turn stays in the history
    without an answer: the fragments received so far were displayed but
    are not stored, and the error is printed. *)
Theorem chat_failure_keeps_user_turn self self1 api_key user_input fragments e :
  summarize_if_needed rt self = Returned self1 ->
  api self1 = Some api_key ->
  PerplexityAPI._stream_response rt (PerplexityAPI.make_headers api_key)
    (Payload (Config.model (config self1)) (outbound self1 user_input) true)
    = (fragments, Raised e) ->
  is_Exception e = true ->
  exists self2,
    chat rt user_input self = (frames_from "" fragments, Returned self2)
    /\ Session.messages (session self2)
       = (Session.messages (session self1) ++ [Message "user" user_input])%list
    /\ console self2
       = (console self1
          ++ [""; (newline ++ "[red]Error: " ++ exn_str rt e ++ "[/red]")%string])%list.
Proof.
  intros Hsum Hapi Hstream Hexc.
  unfold chat, call_chat. rewrite Hsum. simpl. rewrite Hapi.
  unfold PerplexityAPI.chat, PerplexityAPI.iterate, Session.get_messages.
  unfold outbound in Hstream. rewrite Hstream. simpl. rewrite Hexc.
  eexists. split; [reflexivity|]. simpl.
  split; [reflexivity|]. now rewrite <- app_assoc.
Qed.

End ChatFacts.

Lemma chat_stores_exchange_witness :
  let rt := Fixture.world (Returned Scenario.hello_stream) in
  let self := Fixture.app_with 3000 Fixture.six_messages in
  exists self2,
    PerplexityCLI.chat rt "hi again" self = (["Hel"; "Hello"], Returned self2)
    /\ Session.messages (PerplexityCLI.session self2)
       = (Fixture.six_messages
          ++ [Message "user" "hi again"; Message "assistant" "Hello"])%list.
Proof.
  intros rt self.
  destruct (chat_stores_exchange rt self self "pplx-key" "hi again"
              ["Hel"; "lo"]
              {[ "citations" := JArr []; "content" := JStr "Hello" ]})
    as (self2 & Hrun & Hmsgs & _).
  - reflexivity.
  - reflexivity.
  - vm_compute. reflexivity.
  - exists self2. split; [exact Hrun | exact Hmsgs].
Defined.

Lemma chat_failure_keeps_user_turn_witness :
  let rt := Fixture.world (Returned Scenario.interrupted) in
  let self := Fixture.app_with 3000 Fixture.six_messages in
  exists self2,
    PerplexityCLI.chat rt "hi again" self = (["Hel"; "Hello"], Returned self2)
    /\ Session.messages (PerplexityCLI.session self2)
       = (Fixture.six_messages ++ [Message "user" "hi again"])%list
    /\ PerplexityCLI.console self2
       = [""; (PerplexityCLI.newline ++ "[red]Error: connection reset[/red]")%string].
Proof.
  intros rt self.
  destruct (chat_failure_keeps_user_turn rt self self "pplx-key" "hi again"
              ["Hel"; "lo"] (RequestException "connection reset"))
    as (self2 & Hrun & Hmsgs & Hconsole).
  - reflexivity.
  - reflexivity.
  - vm_compute. reflexivity.
  - reflexivity.
  - exists self2. split; [exact Hrun|]. split; [exact Hmsgs | exact Hconsole].
Defined.

(** ** Sessions, configuration and start-up *)

Section StoreFacts.

(** Clearing a session and adding messages one by one gives exactly
    those messages, in order, under a fresh creation time; the file name
    and the model of the session are kept. *)
Theorem session_replay (now : string) (l : list message) (s : Session.t) :
  fold_left (fun s msg => Session.add_message (role msg) (content msg) s) l
    (Session.clear now s)
  = Session.Make l (Session.current_file s) now (Session.model s).
Proof. now rewrite add_messages_back. Qed.

(** What [Config()] builds is the defaults overridden by a mapping: the
    one in the file, or the empty one. *)
Lemma init_returns (file : ConfigStore.config_file) (c : gmap string json) :
  ConfigStore.init file = Returned c ->
  exists u,
    c = u ∪ ConfigStore.DEFAULT_CONFIG
    /\ (file = ConfigStore.Present (Returned (ConfigStore.YMap u)) \/ u = ∅).
Proof.
  unfold ConfigStore.init, ConfigStore._load, bind.
  destruct file as [|[doc|e]].
  - intros [= <-]. exists ∅. split; [now rewrite (left_id_L ∅ (∪))| now right].
  - destruct (ConfigStore.truthy doc) eqn:Ht.
    + destruct doc as [|b|q|[|a s']|u]; simpl; try discriminate.
      intros [= <-]. exists u. split; [reflexivity | now left].
    + simpl. intros [= <-]. exists ∅. split; [reflexivity | now right].
  - destruct e; try discriminate;
      intros [= <-]; exists ∅; (split; [now rewrite (left_id_L ∅ (∪))| now right]).
Qed.


(** Every key of the defaults stays present in every configuration the
    program can hold, so the properties never use their fallback: they
    return what is stored. *)
Theorem config_defaults_stay (c : gmap string json) :
  ConfigStore.reachable c ->
  (forall key, is_Some (ConfigStore.DEFAULT_CONFIG !! key) -> is_Some (c !! key))
  /\ c !! "model" = Some (ConfigStore.model c)
  /\ c !! "system_prompt" = Some (ConfigStore.system_prompt c)
  /\ c !! "input_token_limit" = Some (ConfigStore.input_token_limit c).
Proof.
  intros Hreach.
  assert (Hkeys : forall key,
             is_Some (ConfigStore.DEFAULT_CONFIG !! key) -> is_Some (c !! key)).
  { induction Hreach as [file c Hinit|k v c _ IH]; intros key Hkey.
    - destruct (init_returns file c Hinit) as (u & -> & _).
      destruct (u !! key) as [x|] eqn:Hu.
      + rewrite (lookup_union_Some_l _ _ _ _ Hu). eauto.
      + rewrite (lookup_union_r _ _ _ Hu). exact Hkey.
    - unfold ConfigStore.set.
      destruct (decide (k = key)) as [->|Hne].
      + rewrite lookup_insert_eq. eauto.
      + rewrite lookup_insert_ne by exact Hne. now apply IH. }
  split; [exact Hkeys|].
  unfold ConfigStore.model, ConfigStore.system_prompt,
    ConfigStore.input_token_limit, ConfigStore.get.
  repeat split.
  - destruct (Hkeys "model") as [x ->]; [vm_compute; eauto | reflexivity].
  - destruct (Hkeys "system_prompt") as [x ->]; [vm_compute; eauto | reflexivity].
  - destruct (Hkeys "input_token_limit") as [x ->];
      [vm_compute; eauto | reflexivity].
Qed.

(** [set] then [get] gives the value back and touches no other key; in
    particular the model setter decides what the model property
    returns and leaves the system prompt alone. *)
Theorem config_set_get key value (c : gmap string json) :
  (forall default, ConfigStore.get (ConfigStore.set key value c) key default = value)
  /\ (forall other default,
        other <> key ->
        ConfigStore.get (ConfigStore.set key value c) other default
        = ConfigStore.get c other default)
  /\ ConfigStore.model (ConfigStore.set_model value c) = value
  /\ ConfigStore.system_prompt (ConfigStore.set_model value c)
     = ConfigStore.system_prompt c.
Proof.
  unfold ConfigStore.model, ConfigStore.system_prompt, ConfigStore.set_model,
    ConfigStore.get, ConfigStore.set.
  repeat split.
  - intros default. now rewrite lookup_insert_eq.
  - intros other default Hne. now rewrite lookup_insert_ne by congruence.
  - now rewrite lookup_insert_eq.
  - now rewrite lookup_insert_ne by discriminate.
Qed.

(** The environment variable wins over the key of the configuration
    file, also when it is set to the empty text: then no client is
    built although the file holds a key. *)
Theorem environment_key_wins environ (c : gmap string json) k :
  environ !! "PPLX_API_KEY" = Some k ->
  Startup.initialize_api environ c
  = if String.eqb k ""
    then (false, None,
          ["[red]Error: " ++ Startup.KEY_ERROR ++ "[/red]";
           "[yellow]Set PPLX_API_KEY environment variable to continue.[/yellow]"])
    else (true, Some (JStr k), []).
Proof.
  intros Henv.
  unfold Startup.initialize_api, Startup.api_init, ConfigStore.api_key.
  rewrite Henv. simpl.
  destruct (String.eqb_spec k "") as [->|Hne]; simpl.
  - reflexivity.
  - now rewrite (proj2 (String.eqb_neq k "") Hne).
Qed.

(** Without the environment variable the key of the configuration file
    is used; a client is built exactly when that key is truthy. *)
Theorem file_key_used_without_environment environ (c : gmap string json) :
  environ !! "PPLX_API_KEY" = None ->
  let key := ConfigStore.get c "api_key" (JStr "") in
  Startup.initialize_api environ c
  = if truthy key
    then (true, Some key, [])
    else (false, None,
          ["[red]Error: " ++ Startup.KEY_ERROR ++ "[/red]";
           "[yellow]Set PPLX_API_KEY environment variable to continue.[/yellow]"]).
Proof.
  intros Henv key.
  unfold Startup.initialize_api, Startup.api_init, ConfigStore.api_key.
  rewrite Henv. fold key.
  destruct (truthy key) eqn:Hk; [now rewrite Hk | reflexivity].
Qed.

End StoreFacts.


Lemma config_defaults_stay_witness :
  let user_config : gmap string json := {[ "model" := JStr "sonar" ]} in
  let c := ConfigStore.set "theme" (JStr "dark")
             (user_config ∪ ConfigStore.DEFAULT_CONFIG) in
  ConfigStore.reachable c
  /\ c !! "model" = Some (JStr "sonar")
  /\ ConfigStore.model c = JStr "sonar"
  /\ ConfigStore.input_token_limit c = JNum (Qmake 3000 1).
Proof.
  intros user_config c.
  assert (Hreach : ConfigStore.reachable c).
  { apply ConfigStore.reachable_set.
    apply (ConfigStore.reachable_init
             (ConfigStore.Present (Returned (ConfigStore.YMap user_config)))).
    reflexivity. }
  destruct (config_defaults_stay c Hreach) as (_ & Hmodel & _ & _).
  assert (Hsonar : ConfigStore.model c = JStr "sonar") by (vm_compute; reflexivity).
  split; [exact Hreach|]. split; [now rewrite Hmodel, Hsonar|].
  split; [exact Hsonar | vm_compute; reflexivity].
Defined.

Lemma environment_key_wins_witness :
  let file_config : gmap string json :=
    {[ "api_key" := JStr "pplx-file" ]} ∪ ConfigStore.DEFAULT_CONFIG in
  Startup.initialize_api {[ "PPLX_API_KEY" := "" ]} file_config
  = (false, None,
     ["[red]Error: " ++ Startup.KEY_ERROR ++ "[/red]";
      "[yellow]Set PPLX_API_KEY environment variable to continue.[/yellow]"])
  /\ Startup.initialize_api {[ "PPLX_API_KEY" := "pplx-env" ]} file_config
     = (true, Some (JStr "pplx-env"), []).
Proof.
  intros file_config. split.
  - exact (environment_key_wins {[ "PPLX_API_KEY" := "" ]} file_config ""
             eq_refl).
  - exact (environment_key_wins {[ "PPLX_API_KEY" := "pplx-env" ]} file_config
             "pplx-env" eq_refl).
Defined.

Lemma file_key_used_without_environment_witness :
  let file_config : gmap string json :=
    {[ "api_key" := JStr "pplx-file" ]} ∪ ConfigStore.DEFAULT_CONFIG in
  Startup.initialize_api ∅ file_config = (true, Some (JStr "pplx-file"), [])
  /\ fst (fst (Startup.initialize_api ∅ ConfigStore.DEFAULT_CONFIG)) = false.
Proof.
  intros file_config.
  assert (Henv : (∅ : gmap string string) !! "PPLX_API_KEY" = None)
    by apply lookup_empty.
  split.
  - exact (file_key_used_without_environment ∅ file_config Henv).
  - now rewrite (file_key_used_without_environment ∅
                   ConfigStore.DEFAULT_CONFIG Henv).
Defined.

Lemma config_set_get_witness :
  let c := ConfigStore.DEFAULT_CONFIG in
  "system_prompt" <> "model"
  /\ ConfigStore.get (ConfigStore.set "model" (JStr "sonar") c)
       "system_prompt" JNull
     = ConfigStore.get c "system_prompt" JNull
  /\ ConfigStore.get (ConfigStore.set "model" (JStr "sonar") c) "model" JNull
     = JStr "sonar".
Proof.
  intros c.
  assert (Hne : "system_prompt" <> "model") by discriminate.
  destruct (config_set_get "model" (JStr "sonar") c) as (Hsame & Hother & _).
  split; [exact Hne|]. split; [exact (Hother _ JNull Hne) | exact (Hsame JNull)].
Defined.
